(** * Session-token lifecycle of the users service

    A shallow embedding of [UsersService] from
    [services/users/src/services/service.users.ts]: registration, login,
    access-token refresh, health check and revocation, over the three
    document collections the service is constructed with ([UsersModel],
    [SecretsModel], [RolesModel]).

    Collections are finite maps from document identifiers to documents,
    the asynchronous methods are computations in a state-and-exception
    monad over the database, and every [try { ... } catch (e) { ... }] of
    the source is the handler [try_catch]. *)

From stdpp Require Import gmap strings list fin_maps pretty sorting.

Local Open Scope string_scope.
Local Open Scope Z_scope.

(** ** Documents *)

(** A document identifier ([_id]).  Identifiers are totally ordered and
    [sort({ _id: -1 })] ranks documents by that order. *)
Abbreviation ObjectId := N.

(** An instant, in milliseconds since the epoch. *)
Abbreviation Date := Z.

(** Modelled from the spec: the schemas [model.users], [model.roles] and
    [model.secrets] are not under src/.  A Subject is an identifier, an
    email, a credential, a role reference, an activity flag and a
    soft-deletion mark; a Session Record has the attributes of section 3
    of the specification.  Only fields the service reads or writes are
    kept. *)
Module IUsers.
Record t := mk {
    email : string;
    password : string;
    active : bool;
    roleId : ObjectId;
    deletedAt : option Date
  }.
End IUsers.

Module IRoles.
Record t := mk { name : string }.
End IRoles.

Module ISecrets.
Record t := mk {
    accessToken : string;
    refreshToken : string;
    resourceType : string;
    resourceBy : ObjectId;
    expiredAt : Date
  }.
End ISecrets.

(** ** Request bodies ([dto.users]) *)

(** Modelled from the spec: the declarations of [dto.users] are not
    under src/.  A registration carries an email and a password; the
    activity flag and the role reference of the stored user are taken
    from the body as well, so that they range over every value a schema
    default could give them.  Login carries an email and a password,
    refresh an access token.  The body of a health check or of a
    revocation is an object that carries the subject identifier
    ([{ id }]) or does not ([{}]); [id] reads it, [undefined] being
    [None]. *)

Module DTORegister.
Record t := mk {
    email : string;
    password : string;
    active : bool;
    roleId : ObjectId
  }.
End DTORegister.

Module DTOLogin.
Record t := mk { email : string; password : string }.
End DTOLogin.

Module DTORefreshToken.
Record t := mk { accessToken : string }.
End DTORefreshToken.

Module DTOHealthToken.
Inductive t :=
  | mk (id : ObjectId)
  | empty.

Definition id (body : t) : option ObjectId :=
  match body with
  | mk i => Some i
  | empty => None
  end.
End DTOHealthToken.

Module DTORevokeToken.
Inductive t :=
  | mk (id : ObjectId)
  | empty.

Definition id (body : t) : option ObjectId :=
  match body with
  | mk i => Some i
  | empty => None
  end.
End DTORevokeToken.

(** Modelled from the spec: [DTOUsers] and [DTOUsersId] are not under
    src/ either.  The source reads [email] and [password] of a
    [DTOUsers] and [id] of a [DTOUsersId]; the remaining fields of the
    stored user come from the body, as for a registration. *)
Module DTOUsers.
Record t := mk {
  email : string;
  password : string;
  active : bool;
  roleId : ObjectId
}.
End DTOUsers.

Module DTOUsersId.
Record t := mk { id : ObjectId }.
End DTOUsersId.

(** ** Collections and the queries the service issues *)

Section Queries.
Context {A : Type}.

  (** One step of a scan that keeps, among the documents matching [q],
      the one whose identifier is preferred by [pref]. *)
Definition keep (pref : ObjectId → ObjectId → bool) (q : ObjectId → A → bool)
      (k : ObjectId) (v : A) (acc : option (ObjectId * A)) : option (ObjectId * A) :=
    if q k v then
      match acc with
      | Some (k', _) => if pref k k' then Some (k, v) else acc
      | None => Some (k, v)
      end
    else acc.

Definition scan (pref : ObjectId → ObjectId → bool) (q : ObjectId → A → bool)
      (c : gmap ObjectId A) : option (ObjectId * A) :=
    map_fold (keep pref q) None c.

  (** [model.findOne(q)]: the first match in natural (identifier) order. *)
Definition findOne (q : ObjectId → A → bool) (c : gmap ObjectId A) :=
    scan (λ k k', (k <? k')%N) q c.

  (** [model.findOne(q).sort({ _id: -1 })]: the match with the largest
      identifier, that is the most recently inserted one. *)
Definition findOne_latest (q : ObjectId → A → bool) (c : gmap ObjectId A) :=
    scan (λ k k', (k' <? k)%N) q c.

  (** The identifier given to the next inserted document: larger than
      every identifier in the collection. *)
Definition fresh_id (c : gmap ObjectId A) : ObjectId :=
    N.succ (map_fold (λ k _ m, N.max k m) 0%N c).

  (** [model.create(doc)]: the stored document with its identifier, and
      the collection holding it under that fresh identifier. *)
Definition create (doc : A) (c : gmap ObjectId A)
      : option (ObjectId * A) * gmap ObjectId A :=
    (Some (fresh_id c, doc), <[fresh_id c := doc]> c).

  (** [model.findByIdAndUpdate(id, fields)]: [fields] overwrites part of
      the document stored under [id]; nothing happens when there is none. *)
Definition findByIdAndUpdate (id : ObjectId) (fields : A → A)
      (c : gmap ObjectId A) : gmap ObjectId A :=
    alter fields id c.

  (** [model.findByIdAndDelete(id)]: the removed document (or nothing)
      and the collection without it. *)
Definition findByIdAndDelete (id : ObjectId) (c : gmap ObjectId A)
      : option A * gmap ObjectId A :=
    (c !! id, delete id c).
End Queries.

(** ** Responses *)

Module status.
Definition OK : N := 200.
Definition BAD_REQUEST : N := 400.
Definition FORBIDDEN : N := 403.
End status.

(** The payloads the session operations answer with ([loginRes] and
    [tokenRes] in the source). *)
Inductive Data :=
  | NoData
  | LoginRes (accessToken refreshToken : string)
      (accessTokenExpired refreshTokenExpired : Date) (role : string)
  | TokenRes (accessToken : string) (accessTokenExpired : Date) (role : string).

Record APIResponse := apiResponse {
  stat_code : N;
  stat_message : string;
  data : Data
}.

(** What a [throw] carries: a response built by [apiResponse], or the
    [TypeError] the runtime raises on a property read from [null]. *)
Inductive Thrown :=
  | ThrowResponse (r : APIResponse)
  | ThrowTypeError (message : string).

(** The message of the runtime's [TypeError] for [null.prop]. *)
Definition cannot_read (prop : string) : string :=
  "Cannot read properties of null (reading '" ++ prop ++ "')".

(** A settled [Promise<APIResponse>]. *)
Inductive Promise :=
  | Resolved (r : APIResponse)
  | Rejected (r : APIResponse).

(** ** The database, the clock and the monad of asynchronous methods *)

Inductive Collection := Users | Roles | Secrets.

(** The calls made on the models, recorded in the order they are issued
    (most recent first). *)
Inductive DbOp :=
  | OpFindOne (c : Collection)
  | OpPopulate (c : Collection)
  | OpCreate (c : Collection)
  | OpFindByIdAndUpdate (c : Collection) (id : ObjectId)
  | OpFindByIdAndDelete (c : Collection) (id : ObjectId).

Definition is_write (op : DbOp) : bool :=
  match op with
  | OpFindOne _ | OpPopulate _ => false
  | OpCreate _ | OpFindByIdAndUpdate _ _ | OpFindByIdAndDelete _ _ => true
  end.

Record World := mkWorld {
  users : gmap ObjectId IUsers.t;
  roles : gmap ObjectId IRoles.t;
  secrets : gmap ObjectId ISecrets.t;
  clock : Date;
  journal : list DbOp
}.

Inductive Completion (A : Type) :=
  | Normal (a : A)
  | Abrupt (e : Thrown).
Arguments Normal {A} a.
Arguments Abrupt {A} e.

Definition Async (A : Type) : Type := World → Completion A * World.

Definition ret {A} (a : A) : Async A := λ w, (Normal a, w).

Definition bind {A B} (m : Async A) (k : A → Async B) : Async B :=
  λ w, match m w with
       | (Normal a, w') => k a w'
       | (Abrupt e, w') => (Abrupt e, w')
       end.

Definition throw {A} (e : Thrown) : Async A := λ w, (Abrupt e, w).

Notation "'let!' x ':=' m 'in' k" := (bind m (λ x, k))
  (at level 10, x pattern, m at level 100, k at level 200).

(** [e.stat_code || status.BAD_REQUEST] and [e.stat_message || e.message]:
    [||] takes its right operand when the left one is missing, zero or
    the empty string.  A thrown response has no [message] property; that
    undefined value is rendered as the empty string. *)
Definition code_or (e : Thrown) (d : N) : N :=
  match e with
  | ThrowResponse r => if (stat_code r =? 0)%N then d else stat_code r
  | ThrowTypeError _ => d
  end.

Definition message_of (e : Thrown) : string :=
  match e with
  | ThrowResponse r => stat_message r
  | ThrowTypeError m => m
  end.

(** [try { return Promise.resolve(...) } catch (e) { return Promise.reject(...) }] *)
Definition try_catch (body : Async APIResponse) (w : World) : Promise * World :=
  match body w with
  | (Normal r, w') => (Resolved r, w')
  | (Abrupt e, w') =>
      (Rejected (apiResponse (code_or e status.BAD_REQUEST) (message_of e) NoData), w')
  end.

Definition record_op (op : DbOp) (w : World) : World :=
  mkWorld (users w) (roles w) (secrets w) (clock w) (op :: journal w).

(** [new Date()] *)
Definition new_Date : Async Date := λ w, (Normal (clock w), w).

(** *** Calls on [this.users.model] *)

Definition users_findOne (q : ObjectId → IUsers.t → bool)
    : Async (option (ObjectId * IUsers.t)) :=
  λ w, (Normal (findOne q (users w)), record_op (OpFindOne Users) w).

(** [findOne(q).populate({ path: 'roleId', model: roles }).lean()]: the
    user together with the role document its [roleId] refers to, [null]
    when there is no such role.  The roles are queried only when a user
    was found. *)
Definition users_findOne_populate (q : ObjectId → IUsers.t → bool)
    : Async (option (ObjectId * IUsers.t * option IRoles.t)) :=
  λ w, match findOne q (users w) with
       | Some (k, u) =>
           (Normal (Some (k, u, roles w !! IUsers.roleId u)),
            record_op (OpPopulate Roles) (record_op (OpFindOne Users) w))
       | None => (Normal None, record_op (OpFindOne Users) w)
       end.

Definition users_create (doc : IUsers.t) : Async (option (ObjectId * IUsers.t)) :=
  λ w, let '(r, c) := create doc (users w) in
       (Normal r, record_op (OpCreate Users)
                    (mkWorld c (roles w) (secrets w) (clock w) (journal w))).

(** *** Calls on [this.secrets.model] *)

Definition secrets_findOne_latest (q : ObjectId → ISecrets.t → bool)
    : Async (option (ObjectId * ISecrets.t)) :=
  λ w, (Normal (findOne_latest q (secrets w)), record_op (OpFindOne Secrets) w).

Definition secrets_create (doc : ISecrets.t) : Async (option (ObjectId * ISecrets.t)) :=
  λ w, let '(r, c) := create doc (secrets w) in
       (Normal r, record_op (OpCreate Secrets)
                    (mkWorld (users w) (roles w) c (clock w) (journal w))).

Definition secrets_findByIdAndUpdate (id : ObjectId) (fields : ISecrets.t → ISecrets.t)
    : Async unit :=
  λ w, (Normal (), record_op (OpFindByIdAndUpdate Secrets id)
                     (mkWorld (users w) (roles w)
                        (findByIdAndUpdate id fields (secrets w)) (clock w) (journal w))).

Definition secrets_findByIdAndDelete (id : ObjectId) : Async (option ISecrets.t) :=
  λ w, let '(r, c) := findByIdAndDelete id (secrets w) in
       (Normal r, record_op (OpFindByIdAndDelete Secrets id)
                    (mkWorld (users w) (roles w) c (clock w) (journal w))).

(** ** The shared package ([@node/pkg]) *)

(** What [JsonWebToken.signToken] and [JsonWebToken.refreshToken] are
    called with. *)
Record Payload := mkPayload {
  p_id : ObjectId;
  p_email : string;
  p_role : string
}.

Record SignOptions := mkOptions { expiresIn : string; audience : string }.

Record SignArgs := mkSign {
  payload : Payload;
  secretOrPrivateKey : string;
  options : SignOptions
}.

(** The fields of the object [signToken] returns, spread into the
    session record and into the login response. *)
Record Tokens := mkTokens { t_accessToken : string; t_refreshToken : string }.

Module Pkg.
Definition days : Z := 86400000.

  (** Modelled from the spec: [expiredAt] is not under src/.  The
      specification gives [accessTokenExpiry = now + 1 day] and
      [refreshTokenExpiry = now + 30 days]: the instant [n] units after
      the current reading of the clock. *)
Definition expiredAt (n : Z) (unit : Z) : Async Date :=
    let! now := new_Date in ret (now + n * unit).

  (** Modelled from the spec: [dateFormat] is not under src/.  The
      specification compares the instants themselves
      ([record.expiredAt <= now], [record.expiredAt < now]), so the
      rendering preserves their order; instants are their own rendering. *)
Definition dateFormat (d : Date) : Date := d.
End Pkg.

(** A reference implementation of the package's hasher and token issuer,
    used to run the service on concrete inputs. *)
Module Sample.
Definition hashPassword (plain : string) : string := "$2b$" ++ plain.

Definition comparePassword (plain hash : string) : bool :=
  bool_decide (hashPassword plain = hash).

Definition render (args : SignArgs) (now : Date) : string :=
  p_email (payload args) ++ ":" ++ p_role (payload args) ++ "@" ++ pretty now.

Definition signToken (args : SignArgs) (now : Date) : Tokens :=
  mkTokens ("access:" ++ render args now) ("refresh:" ++ render args now).

Definition refreshToken (args : SignArgs) (now : Date) : string :=
  "access:" ++ render args now.

Definition JWT_SECRET_KEY : string := "secret".
End Sample.

(** Concrete worlds: one registered, active user (identifier 5, role
    "admin") and a few session-record stores for that user. *)
Module Scenario.
Definition alice : IUsers.t :=
  IUsers.mk "a@x.com" (Sample.hashPassword "pw1") true 1 None.

Definition session (token : string) (by_ : ObjectId) (expiry : Date) : ISecrets.t :=
  ISecrets.mk token "refresh" "login" by_ expiry.

Definition world (sessions : gmap ObjectId ISecrets.t) (now : Date) : World :=
  mkWorld {[ 5%N := alice ]} {[ 1%N := IRoles.mk "admin" ]} sessions now [].

(** One record, expiring at 100. *)
Definition single : gmap ObjectId ISecrets.t :=
  {[ 1%N := session "t1" 5 100 ]}.

(** Two records from two logins, both still valid at 50. *)
Definition two_live : gmap ObjectId ISecrets.t :=
  {[ 1%N := session "t1" 5 100; 2%N := session "t2" 5 200 ]}.

(** Two records; the older one was refreshed and now outlives the
    latest one. *)
Definition stale_latest : gmap ObjectId ISecrets.t :=
  {[ 1%N := session "t1" 5 300; 2%N := session "t2" 5 200 ]}.

(** A record whose subject (identifier 9) is not among the users. *)
Definition orphan : gmap ObjectId ISecrets.t :=
  {[ 1%N := session "t1" 9 100 ]}.
End Scenario.

(** The same world at a later reading of the clock. *)
Definition at_time (now : Date) (w : World) : World :=
  mkWorld (users w) (roles w) (secrets w) now (journal w).

(** ** Responses and calls of the user-management methods *)

(** [apiResponse]'s [data] is untyped in the source.  The
    user-management methods answer with payloads of their own: the
    literal ['checkUser'], one user document, or the documents [find]
    returned. *)
Inductive UsersData :=
  | NoUsersData
  | Literal (text : string)
  | OneUser (_id : ObjectId) (user : IUsers.t)
  | ManyUsers (documents : list (ObjectId * IUsers.t)).

Record UsersResponse := usersResponse {
  users_stat_code : N;
  users_stat_message : string;
  users_data : UsersData
}.

(** A settled promise of a user-management method; a rejection is built
    by the same handler as everywhere else and carries no payload. *)
Inductive UsersPromise :=
  | UsersResolved (r : UsersResponse)
  | UsersRejected (r : APIResponse).

Definition try_catch_users (body : Async UsersResponse) (w : World) : UsersPromise * World :=
  match body w with
  | (Normal r, w') => (UsersResolved r, w')
  | (Abrupt e, w') =>
      (UsersRejected (apiResponse (code_or e status.BAD_REQUEST) (message_of e) NoData), w')
  end.

(** [this.users.model.find({})]: every document of the collection, in
    the order of their identifiers, which is the order of insertion.
    This read is not among the recorded calls. *)
Definition by_identifier (a b : ObjectId * IUsers.t) : Prop := (a.1 ≤ b.1)%N.

#[local] Instance by_identifier_dec : RelDecision by_identifier :=
  λ a b, decide (a.1 ≤ b.1)%N.

Definition users_find : Async (list (ObjectId * IUsers.t)) :=
  λ w, (Normal (merge_sort by_identifier (map_to_list (users w))), w).

(** The object [findOneAndUpdate] is called with, and nothing else, by
    the two writing methods of user management:
    [{ _id: params.id, deletedAt: new Date() }] and
    [{ _id: params.id, ...body }]. *)
Inductive UpdateDocument :=
  | SetDeletedAt (_id : ObjectId) (deletedAt : Date)
  | SetBody (_id : ObjectId) (body : DTOUsers.t).

(** More concrete worlds: a directory with an active user (identifier
    5), an inactive one (6) and a soft-deleted one (7). *)
Module Directory.
Definition bob : IUsers.t :=
  IUsers.mk "b@x.com" (Sample.hashPassword "pw2") false 1 None.

Definition carol : IUsers.t :=
  IUsers.mk "c@x.com" (Sample.hashPassword "pw3") true 1 (Some 40).

Definition world (sessions : gmap ObjectId ISecrets.t) (now : Date) : World :=
  mkWorld {[ 5%N := Scenario.alice; 6%N := bob; 7%N := carol ]}
    {[ 1%N := IRoles.mk "admin" ]} sessions now [].

Definition apply_update (doc : UpdateDocument) (u : IUsers.t) : IUsers.t :=
  match doc with
  | SetDeletedAt _ deletedAt =>
      IUsers.mk (IUsers.email u) (IUsers.password u) (IUsers.active u) (IUsers.roleId u)
        (Some deletedAt)
  | SetBody _ body =>
      IUsers.mk (DTOUsers.email body) (DTOUsers.password body) (DTOUsers.active body)
        (DTOUsers.roleId body) (IUsers.deletedAt u)
  end.

(** A stand-in for the one-argument [findOneAndUpdate], used to run the
    two writing methods on concrete inputs: the object is applied as an
    update to the first stored user. *)
Definition findOneAndUpdate (doc : UpdateDocument) : Async (option (ObjectId * IUsers.t)) :=
  λ w, match findOne (λ _ _, true) (users w) with
       | Some (k, u) =>
           (Normal (Some (k, u)),
            mkWorld (<[k := apply_update doc u]> (users w)) (roles w) (secrets w) (clock w)
              (OpFindByIdAndUpdate Users k :: journal w))
       | None => (Normal None, record_op (OpFindOne Users) w)
       end.
End Directory.

(** A user whose [roleId] refers to no role, holding one session record
    that expires at 100. *)
Module Dangling.
Definition dave : IUsers.t :=
  IUsers.mk "d@x.com" (Sample.hashPassword "pw4") true 2 None.

Definition world (now : Date) : World :=
  mkWorld {[ 8%N := dave ]} {[ 1%N := IRoles.mk "admin" ]}
    {[ 1%N := Scenario.session "t1" 8 100 ]} now [].
End Dangling.

(** ** The service *)

Section UsersService.

(** [Bcrypt.hashPassword], the [success] field of [Bcrypt.comparePassword],
    [JsonWebToken.signToken], [JsonWebToken.refreshToken] (both also read
    the clock) and [process.env.JWT_SECRET_KEY]. *)
Variable hashPassword : string → string.
Variable comparePassword : string → string → bool.
Variable signToken : SignArgs → Date → Tokens.
Variable refreshToken : SignArgs → Date → string.
Variable JWT_SECRET_KEY : string.

Definition by_email (email : string) : ObjectId → IUsers.t → bool :=
  λ _ u, bool_decide (IUsers.email u = email) && bool_decide (IUsers.deletedAt u = None).

Definition by_id (id : ObjectId) : ObjectId → IUsers.t → bool :=
  λ k u, bool_decide (k = id) && bool_decide (IUsers.deletedAt u = None).

Definition by_accessToken (token type : string) : ObjectId → ISecrets.t → bool :=
  λ _ s, bool_decide (ISecrets.accessToken s = token)
         && bool_decide (ISecrets.resourceType s = type).

Definition by_resource (id : ObjectId) : ObjectId → ISecrets.t → bool :=
  λ _ s, bool_decide (ISecrets.resourceBy s = id).

(** The conditions [{ resourceBy: body.id }].  When the body has no
    [id] the condition is on an undefined value, which no session record
    satisfies: every record carries the identifier of its subject. *)
Definition by_resource_of (id : option ObjectId) : ObjectId → ISecrets.t → bool :=
  match id with
  | Some i => by_resource i
  | None => λ _ _, false
  end.

Definition registerUsers (body : DTORegister.t) : World → Promise * World :=
  try_catch (
    let! checkUser := users_findOne (by_email (DTORegister.email body)) in
    match checkUser with
    | Some _ =>
        throw (ThrowResponse (apiResponse status.BAD_REQUEST
                 ("Email " ++ DTORegister.email body ++ " already taken") NoData))
    | None =>
    let password := hashPassword (DTORegister.password body) in
    let! createUsers := users_create
        (IUsers.mk (DTORegister.email body) password
           (DTORegister.active body) (DTORegister.roleId body) None) in
    match createUsers with
    | None =>
        throw (ThrowResponse (apiResponse status.FORBIDDEN
                 "Register new user account failed" NoData))
    | Some _ => ret (apiResponse status.OK "Register new user account success" NoData)
    end
    end).

Definition loginUsers (body : DTOLogin.t) : World → Promise * World :=
  try_catch (
    let! getUser := users_findOne_populate (by_email (DTOLogin.email body)) in
    match getUser with
    | None =>
        throw (ThrowResponse (apiResponse status.BAD_REQUEST "Email is not registered" NoData))
    | Some (_id, user, roleId) =>
    if negb (IUsers.active user) then
      throw (ThrowResponse (apiResponse status.BAD_REQUEST
               "User account is not active, please contact admin" NoData))
    else
    let isCompare := comparePassword (DTOLogin.password body) (IUsers.password user) in
    if negb isCompare then
      throw (ThrowResponse (apiResponse status.BAD_REQUEST "Email or password failed" NoData))
    else
    match roleId with
    | None => throw (ThrowTypeError (cannot_read "name"))
    | Some role =>
    let! issuedAt := new_Date in
    let token := signToken
        (mkSign (mkPayload _id (IUsers.email user) (IRoles.name role))
           JWT_SECRET_KEY (mkOptions "1d" "node")) issuedAt in
    let! isAccessTokenExpired := Pkg.expiredAt 1 Pkg.days in
    let! isRefreshTokenExpired := Pkg.expiredAt 30 Pkg.days in
    let! _ := secrets_create
        (ISecrets.mk (t_accessToken token) (t_refreshToken token)
           "login" _id isAccessTokenExpired) in
    ret (apiResponse status.OK "Login success"
           (LoginRes (t_accessToken token) (t_refreshToken token)
              isAccessTokenExpired isRefreshTokenExpired (IRoles.name role)))
    end
    end).

Definition refreshTokenUsers (body : DTORefreshToken.t) : World → Promise * World :=
  try_catch (
    let! getAccessToken :=
      secrets_findOne_latest (by_accessToken (DTORefreshToken.accessToken body) "login") in
    match getAccessToken with
    | None =>
        throw (ThrowResponse (apiResponse status.BAD_REQUEST "AccessToken is not exist" NoData))
    | Some (secret_id, secret) =>
    let! now := new_Date in
    if Pkg.dateFormat (ISecrets.expiredAt secret) >? Pkg.dateFormat now then
      throw (ThrowResponse (apiResponse status.BAD_REQUEST
               "Your accessToken is not expired" NoData))
    else
    let! getUser := users_findOne_populate (by_id (ISecrets.resourceBy secret)) in
    match getUser with
    | None => throw (ThrowTypeError (cannot_read "_id"))
    | Some (_id, user, roleId) =>
    match roleId with
    | None => throw (ThrowTypeError (cannot_read "name"))
    | Some role =>
    let! issuedAt := new_Date in
    let token := refreshToken
        (mkSign (mkPayload _id (IUsers.email user) (IRoles.name role))
           JWT_SECRET_KEY (mkOptions "1d" "node")) issuedAt in
    let! isAccessTokenExpired := Pkg.expiredAt 1 Pkg.days in
    let! _ := secrets_findByIdAndUpdate secret_id
        (λ old, ISecrets.mk token (ISecrets.refreshToken old)
                  "login" _id isAccessTokenExpired) in
    ret (apiResponse status.OK "Refresh accessToken success"
           (TokenRes token isAccessTokenExpired (IRoles.name role)))
    end
    end
    end).

(** The body of [healthTokenUsers] and [revokeTokenUsers] is [undefined]
    when the request carried none.  The guard tests the body, not its
    [id]. *)
Definition healthTokenUsers (body : option DTOHealthToken.t) : World → Promise * World :=
  try_catch (
    match body with
    | None => throw (ThrowResponse (apiResponse status.BAD_REQUEST "AccessToken expired" NoData))
    | Some body =>
    let! getAccessToken := secrets_findOne_latest (by_resource_of (DTOHealthToken.id body)) in
    match getAccessToken with
    | None =>
        throw (ThrowResponse (apiResponse status.BAD_REQUEST "AccessToken is not exist" NoData))
    | Some (_, secret) =>
    let! now := new_Date in
    if Pkg.dateFormat (ISecrets.expiredAt secret) <? Pkg.dateFormat now then
      throw (ThrowResponse (apiResponse status.BAD_REQUEST "AccessToken expired" NoData))
    else
    ret (apiResponse status.OK "AccessToken healthy" NoData)
    end
    end).

Definition revokeTokenUsers (body : option DTORevokeToken.t) : World → Promise * World :=
  try_catch (
    match body with
    | None => throw (ThrowResponse (apiResponse status.BAD_REQUEST "AccessToken expired" NoData))
    | Some body =>
    let! getAccessToken := secrets_findOne_latest (by_resource_of (DTORevokeToken.id body)) in
    match getAccessToken with
    | None =>
        throw (ThrowResponse (apiResponse status.BAD_REQUEST "AccessToken is not exist" NoData))
    | Some (secret_id, secret) =>
    let! now := new_Date in
    if Pkg.dateFormat (ISecrets.expiredAt secret) <? Pkg.dateFormat now then
      throw (ThrowResponse (apiResponse status.BAD_REQUEST "AccessToken expired" NoData))
    else
    let! deleteAccessToken := secrets_findByIdAndDelete secret_id in
    match deleteAccessToken with
    | None =>
        throw (ThrowResponse (apiResponse status.BAD_REQUEST "Revoke accessToken failed" NoData))
    | Some _ => ret (apiResponse status.OK "Revoke accessToken success" NoData)
    end
    end
    end).

(** *** User management *)

Definition createUsers (body : DTOUsers.t) : World → UsersPromise * World :=
  try_catch_users (
    let! checkUser := users_findOne (by_email (DTOUsers.email body)) in
    match checkUser with
    | None =>
        throw (ThrowResponse (apiResponse status.BAD_REQUEST "Email already taken" NoData))
    | Some _ =>
    let password := hashPassword (DTOUsers.password body) in
    let! createUsers := users_create
        (IUsers.mk (DTOUsers.email body) password
           (DTOUsers.active body) (DTOUsers.roleId body) None) in
    match createUsers with
    | None =>
        throw (ThrowResponse (apiResponse status.FORBIDDEN
                 "Create new users account failed" NoData))
    | Some _ =>
        ret (usersResponse status.OK "Create new users account success" (Literal "checkUser"))
    end
    end).

Definition getAllUsers : World → UsersPromise * World :=
  try_catch_users (
    let! getAllUsers := users_find in
    ret (usersResponse status.OK "Users already to use" (ManyUsers getAllUsers))).

Definition getUsersById (params : DTOUsersId.t) : World → UsersPromise * World :=
  try_catch_users (
    let! getUser := users_findOne (by_id (DTOUsersId.id params)) in
    match getUser with
    | None =>
        throw (ThrowResponse (apiResponse status.BAD_REQUEST "Users data is not exist" NoData))
    | Some (_id, user) =>
        ret (usersResponse status.OK "Users already to use" (OneUser _id user))
    end).

(** [this.users.model.findOneAndUpdate(doc)], called with one object and
    no second argument.  What the model does with a single argument is
    decided by the library and not by this file, so the call is a
    parameter: any computation on the world that answers with a user
    document or [null], or throws. *)
Variable users_findOneAndUpdate : UpdateDocument → Async (option (ObjectId * IUsers.t)).

Definition deleteUsersById (params : DTOUsersId.t) : World → UsersPromise * World :=
  try_catch_users (
    let! getUser := users_findOne (by_id (DTOUsersId.id params)) in
    match getUser with
    | None =>
        throw (ThrowResponse (apiResponse status.BAD_REQUEST "Users data is not exist" NoData))
    | Some _ =>
    let! now := new_Date in
    let! deleteUser := users_findOneAndUpdate (SetDeletedAt (DTOUsersId.id params) now) in
    match deleteUser with
    | None =>
        throw (ThrowResponse (apiResponse status.FORBIDDEN "Deleted users data failed" NoData))
    | Some _ => ret (usersResponse status.OK "Deleted users data success" NoUsersData)
    end
    end).

Definition updateUsersById (body : DTOUsers.t) (params : DTOUsersId.t)
    : World → UsersPromise * World :=
  try_catch_users (
    let! getUser := users_findOne (by_id (DTOUsersId.id params)) in
    match getUser with
    | None =>
        throw (ThrowResponse (apiResponse status.BAD_REQUEST "Users data is not exist" NoData))
    | Some _ =>
    let! updateUser := users_findOneAndUpdate (SetBody (DTOUsersId.id params) body) in
    match updateUser with
    | None =>
        throw (ThrowResponse (apiResponse status.FORBIDDEN "Updated users data failed" NoData))
    | Some _ => ret (usersResponse status.OK "Updated users data success" NoUsersData)
    end
    end).

(** No two users that are not soft-deleted share an email. *)
Definition unique_emails (c : gmap ObjectId IUsers.t) : Prop :=
  ∀ k1 k2 u1 u2, c !! k1 = Some u1 → c !! k2 = Some u2 →
    IUsers.deletedAt u1 = None → IUsers.deletedAt u2 = None →
    IUsers.email u1 = IUsers.email u2 → k1 = k2.

(** ** Vocabulary of the session-record store *)

(** [latest_for id c k s]: [s], stored under [k], is the most recently
    inserted record of [c] whose [resourceBy] is [id]. *)
Definition latest_for (id : ObjectId) (c : gmap ObjectId ISecrets.t)
    (k : ObjectId) (s : ISecrets.t) : Prop :=
  c !! k = Some s ∧ ISecrets.resourceBy s = id ∧
  ∀ k' s', c !! k' = Some s' → ISecrets.resourceBy s' = id → (k' ≤ k)%N.

(** [latest_login token c k s]: [s], stored under [k], is the most
    recently inserted record of [c] with access token [token] and
    resource type "login". *)
Definition latest_login (token : string) (c : gmap ObjectId ISecrets.t)
    (k : ObjectId) (s : ISecrets.t) : Prop :=
  c !! k = Some s ∧ ISecrets.accessToken s = token ∧ ISecrets.resourceType s = "login" ∧
  ∀ k' s', c !! k' = Some s' → ISecrets.accessToken s' = token →
           ISecrets.resourceType s' = "login" → (k' ≤ k)%N.

(** [subject_of w id]: the user stored under [id] when it is not
    soft-deleted, with the role its [roleId] resolves to. *)
Definition subject_of (w : World) (id : ObjectId) : option (IUsers.t * IRoles.t) :=
  match users w !! id with
  | Some u =>
      match IUsers.deletedAt u, roles w !! IUsers.roleId u with
      | None, Some role => Some (u, role)
      | _, _ => None
      end
  | None => None
  end.

(** The world after the three reads a refresh makes before it issues a
    token. *)
Definition after_reads (w : World) : World :=
  record_op (OpPopulate Roles) (record_op (OpFindOne Users) (record_op (OpFindOne Secrets) w)).

(** The records of [c] held for subject [id]. *)
Definition sessions_of (id : ObjectId) (c : gmap ObjectId ISecrets.t)
    : gmap ObjectId ISecrets.t :=
  filter (λ kv, ISecrets.resourceBy kv.2 = id) c.

(** The responses the session operations reject with. *)
Definition rejected_with (message : string) : Promise :=
  Rejected (apiResponse status.BAD_REQUEST message NoData).

(** ** Properties of the queries *)

Section QueryFacts.
Context {A : Type}.
Implicit Types (c : gmap ObjectId A) (q : ObjectId → A → bool).

(** What a finished scan has established about the collection. *)
Definition scanned (pref : ObjectId → ObjectId → bool) q
    (r : option (ObjectId * A)) c : Prop :=
  match r with
  | Some (k, v) =>
      c !! k = Some v ∧ q k v = true ∧
      ∀ k' v', c !! k' = Some v' → q k' v' = true → k' = k ∨ pref k k' = true
  | None => ∀ k v, c !! k = Some v → q k v = false
  end.

Lemma scan_scanned pref q c :
  (∀ a b, a ≠ b → pref a b = true ∨ pref b a = true) →
  (∀ a b d, pref a b = true → pref b d = true → pref a d = true) →
  scanned pref q (scan pref q c) c.
Proof.
  intros Htot Htrans. unfold scan.
  apply (map_fold_weak_ind (scanned pref q)); [by intros k v; rewrite lookup_empty|].
  intros i x m r Hfresh IH. unfold keep.
  destruct (q i x) eqn:Hq.
  - destruct r as [[k v]|]; simpl in IH.
    + destruct IH as (Hk & Hqk & Hbest).
      assert (i ≠ k) by (intros ->; congruence).
      destruct (pref i k) eqn:Hp; simpl.
      * split; [by rewrite lookup_insert_eq|]. split; [done|].
        intros k' v' Hk'. destruct (decide (k' = i)) as [->|Hne]; [by left|].
        rewrite lookup_insert_ne in Hk' by done. intros Hq'.
        destruct (Hbest k' v' Hk' Hq') as [->|Hkk']; [by right|].
        right. by eapply Htrans.
      * split; [by rewrite lookup_insert_ne|]. split; [done|].
        intros k' v' Hk'. destruct (decide (k' = i)) as [->|Hne].
        -- intros _. destruct (Htot i k) as [Hik|Hki]; [done|congruence|by right].
        -- rewrite lookup_insert_ne in Hk' by done. by apply Hbest.
    + simpl. split; [by rewrite lookup_insert_eq|]. split; [done|].
      intros k' v' Hk'. destruct (decide (k' = i)) as [->|Hne]; [by left|].
      rewrite lookup_insert_ne in Hk' by done. intros Hq'.
      rewrite (IH k' v' Hk') in Hq'. done.
  - destruct r as [[k v]|]; simpl in *.
    + destruct IH as (Hk & Hqk & Hbest).
      assert (i ≠ k) by (intros ->; congruence).
      split; [by rewrite lookup_insert_ne|]. split; [done|].
      intros k' v' Hk'. destruct (decide (k' = i)) as [->|Hne].
      * rewrite lookup_insert_eq in Hk'. injection Hk' as <-. congruence.
      * rewrite lookup_insert_ne in Hk' by done. by apply Hbest.
    + intros k v Hk. destruct (decide (k = i)) as [->|Hne].
      * rewrite lookup_insert_eq in Hk. by injection Hk as <-.
      * rewrite lookup_insert_ne in Hk by done. by apply IH.
Qed.

Lemma findOne_latest_Some q c k v :
  findOne_latest q c = Some (k, v) →
  c !! k = Some v ∧ q k v = true ∧
  ∀ k' v', c !! k' = Some v' → q k' v' = true → (k' ≤ k)%N.
Proof.
  intros Hf. pose proof (scan_scanned (λ k k', (k' <? k)%N) q c) as Hs.
  unfold findOne_latest in Hf. rewrite Hf in Hs. simpl in Hs.
  destruct Hs as (Hk & Hq & Hbest).
  - intros a b Hab. rewrite !N.ltb_lt. lia.
  - intros a b d. rewrite !N.ltb_lt. lia.
  - split; [done|]. split; [done|]. intros k' v' Hk' Hq'.
    destruct (Hbest k' v' Hk' Hq') as [->|Hlt]; [lia|]. apply N.ltb_lt in Hlt. lia.
Qed.

Lemma findOne_latest_None q c :
  findOne_latest q c = None ↔ ∀ k v, c !! k = Some v → q k v = false.
Proof.
  pose proof (scan_scanned (λ k k', (k' <? k)%N) q c) as Hs.
  unfold findOne_latest. split.
  - intros Hf. rewrite Hf in Hs. apply Hs.
    + intros a b Hab. rewrite !N.ltb_lt. lia.
    + intros a b d. rewrite !N.ltb_lt. lia.
  - intros Hnone. destruct (scan _ q c) as [[k v]|] eqn:Hf; [|done].
    destruct Hs as (Hk & Hq & _).
    + intros a b Hab. rewrite !N.ltb_lt. lia.
    + intros a b d. rewrite !N.ltb_lt. lia.
    + rewrite (Hnone k v Hk) in Hq. done.
Qed.

(** The latest match is characterised by membership, the query and
    maximality of its identifier. *)
Lemma findOne_latest_intro q c k v :
  c !! k = Some v → q k v = true →
  (∀ k' v', c !! k' = Some v' → q k' v' = true → (k' ≤ k)%N) →
  findOne_latest q c = Some (k, v).
Proof.
  intros Hk Hq Hmax. destruct (findOne_latest q c) as [[k0 v0]|] eqn:Hf.
  - apply findOne_latest_Some in Hf as (Hk0 & Hq0 & Hmax0).
    pose proof (Hmax k0 v0 Hk0 Hq0). pose proof (Hmax0 k v Hk Hq).
    assert (k0 = k) as -> by lia. congruence.
  - rewrite findOne_latest_None in Hf. rewrite (Hf k v Hk) in Hq. done.
Qed.

Lemma findOne_Some q c k v :
  findOne q c = Some (k, v) → c !! k = Some v ∧ q k v = true.
Proof.
  intros Hf. pose proof (scan_scanned (λ k k', (k <? k')%N) q c) as Hs.
  unfold findOne in Hf. rewrite Hf in Hs. simpl in Hs.
  destruct Hs as (Hk & Hq & _); [| |done].
  - intros a b Hab. rewrite !N.ltb_lt. lia.
  - intros a b d. rewrite !N.ltb_lt. lia.
Qed.

Lemma findOne_None q c :
  findOne q c = None ↔ ∀ k v, c !! k = Some v → q k v = false.
Proof.
  pose proof (scan_scanned (λ k k', (k <? k')%N) q c) as Hs.
  unfold findOne. split.
  - intros Hf. rewrite Hf in Hs. apply Hs.
    + intros a b Hab. rewrite !N.ltb_lt. lia.
    + intros a b d. rewrite !N.ltb_lt. lia.
  - intros Hnone. destruct (scan _ q c) as [[k v]|] eqn:Hf; [|done].
    destruct Hs as (Hk & Hq & _).
    + intros a b Hab. rewrite !N.ltb_lt. lia.
    + intros a b d. rewrite !N.ltb_lt. lia.
    + rewrite (Hnone k v Hk) in Hq. done.
Qed.

Lemma fresh_id_above c k : is_Some (c !! k) → (k < fresh_id c)%N.
Proof.
  unfold fresh_id. revert k.
  apply (map_fold_weak_ind (λ r m, ∀ k, is_Some (m !! k) → (k < N.succ r)%N)).
  - intros k [v Hv]. by rewrite lookup_empty in Hv.
  - intros i x m r _ IH k Hk. destruct (decide (k = i)) as [->|Hne]; [lia|].
    rewrite lookup_insert_ne in Hk by done. specialize (IH k Hk). lia.
Qed.

Lemma fresh_id_fresh c : c !! fresh_id c = None.
Proof.
  destruct (c !! fresh_id c) eqn:Hc; [|done].
  assert (fresh_id c < fresh_id c)%N by (apply fresh_id_above; eauto). lia.
Qed.
End QueryFacts.

Lemma latest_for_findOne id c k s :
  findOne_latest (by_resource id) c = Some (k, s) ↔ latest_for id c k s.
Proof.
  unfold latest_for, by_resource. split.
  - intros Hf. apply findOne_latest_Some in Hf as (Hk & Hq & Hmax).
    apply bool_decide_eq_true in Hq. split; [done|]. split; [done|].
    intros k' s' Hk' Hid. apply (Hmax k' s' Hk'). by apply bool_decide_eq_true.
  - intros (Hk & Hid & Hmax). apply findOne_latest_intro; [done|by apply bool_decide_eq_true|].
    intros k' s' Hk' Hq. apply (Hmax k' s' Hk'). by apply bool_decide_eq_true in Hq.
Qed.

Lemma no_session_findOne id c :
  findOne_latest (by_resource id) c = None ↔
  ∀ k s, c !! k = Some s → ISecrets.resourceBy s ≠ id.
Proof.
  rewrite findOne_latest_None. unfold by_resource. split.
  - intros H k s Hk. specialize (H k s Hk). by apply bool_decide_eq_false in H.
  - intros H k s Hk. apply bool_decide_eq_false. by apply (H k s).
Qed.

(** ** Health check *)

Ltac run :=
  unfold try_catch, bind, throw, ret, new_Date, secrets_findOne_latest,
    secrets_findByIdAndDelete, secrets_findByIdAndUpdate, secrets_create,
    users_findOne, users_findOne_populate, users_create, Pkg.expiredAt,
    Pkg.dateFormat, record_op, rejected_with in *; simpl in *.

(** What [healthTokenUsers] answers, by cases on the latest record of
    the subject. *)
Lemma healthTokenUsers_cases id w :
  healthTokenUsers (Some (DTOHealthToken.mk id)) w =
  (match findOne_latest (by_resource id) (secrets w) with
   | None => rejected_with "AccessToken is not exist"
   | Some (_, s) =>
       if ISecrets.expiredAt s <? clock w then rejected_with "AccessToken expired"
       else Resolved (apiResponse status.OK "AccessToken healthy" NoData)
   end, record_op (OpFindOne Secrets) w).
Proof.
  unfold healthTokenUsers. run.
  destruct (findOne_latest _ _) as [[k s]|]; cbn; [|reflexivity].
  destruct (ISecrets.expiredAt s <? clock w); reflexivity.
Qed.

Lemma findOne_latest_no_id (c : gmap ObjectId ISecrets.t) :
  findOne_latest (by_resource_of None) c = None.
Proof. by apply findOne_latest_None. Qed.

(** A body without [id] passes the guard; the lookup is made and finds
    nothing. *)
Lemma healthTokenUsers_empty w :
  healthTokenUsers (Some DTOHealthToken.empty) w
  = (rejected_with "AccessToken is not exist", record_op (OpFindOne Secrets) w).
Proof.
  unfold healthTokenUsers, try_catch, bind, secrets_findOne_latest. cbn.
  by rewrite findOne_latest_no_id.
Qed.

(** C3 (as amended): [healthTokenUsers] succeeds exactly when the most
    recently inserted session record of the subject exists and has
    [expiredAt >= now]; it rejects with "AccessToken expired" when that
    record has [expiredAt < now] and with "AccessToken is not exist" when
    the subject has no record. *)
Theorem healthTokenUsers_latest (id : ObjectId) (w : World) :
  let call := healthTokenUsers (Some (DTOHealthToken.mk id)) w in
  ((∃ r, call.1 = Resolved r) ↔
   ∃ k s, latest_for id (secrets w) k s ∧ clock w ≤ ISecrets.expiredAt s) ∧
  (∀ k s, latest_for id (secrets w) k s → ISecrets.expiredAt s < clock w →
     call.1 = rejected_with "AccessToken expired") ∧
  ((∀ k s, secrets w !! k = Some s → ISecrets.resourceBy s ≠ id) →
     call.1 = rejected_with "AccessToken is not exist").
Proof.
  intros call. subst call. rewrite healthTokenUsers_cases. cbn [fst].
  split; [|split].
  - destruct (findOne_latest _ _) as [[k s]|] eqn:Hf.
    + apply latest_for_findOne in Hf.
      destruct (Z.ltb_spec (ISecrets.expiredAt s) (clock w)) as [Hlt|Hge].
      * split; [by intros [r Hr]|]. intros (k' & s' & Hl & Hle).
        assert (k' = k) as ->.
        { destruct Hf as (Hk & Hid & Hmax), Hl as (Hk' & Hid' & Hmax').
          pose proof (Hmax k' s' Hk' Hid'). pose proof (Hmax' k s Hk Hid). lia. }
        destruct Hf as [Hk _], Hl as [Hk' _]. assert (s' = s) as -> by congruence. lia.
      * split; [|by eauto]. intros _. exists k, s. split; [done|lia].
    + split; [by intros [r Hr]|]. intros (k & s & Hl & _).
      apply latest_for_findOne in Hl. congruence.
  - intros k s Hl Hlt. apply latest_for_findOne in Hl. rewrite Hl.
    destruct (Z.ltb_spec (ISecrets.expiredAt s) (clock w)); [done|lia].
  - intros Hnone. apply no_session_findOne in Hnone. by rewrite Hnone.
Qed.

(** C10: [healthTokenUsers] writes nothing: the users, roles and session
    records are the same before and after every call, whatever its
    outcome, and every call it records on the models is a read. *)
Theorem healthTokenUsers_read_only (body : option DTOHealthToken.t) (w : World) :
  let w' := (healthTokenUsers body w).2 in
  users w' = users w ∧ roles w' = roles w ∧ secrets w' = secrets w ∧
  ∃ ops, journal w' = (ops ++ journal w)%list ∧ forallb (λ op, negb (is_write op)) ops = true.
Proof.
  destruct body as [[id|]|]; intros w'; subst w'.
  - rewrite healthTokenUsers_cases. cbn. do 3 (split; [done|]). by exists [OpFindOne Secrets].
  - rewrite healthTokenUsers_empty. cbn. do 3 (split; [done|]). by exists [OpFindOne Secrets].
  - cbn. do 3 (split; [done|]). by exists [].
Qed.

(** ** Revocation *)

Lemma revokeTokenUsers_cases id w :
  revokeTokenUsers (Some (DTORevokeToken.mk id)) w =
  match findOne_latest (by_resource id) (secrets w) with
  | None => (rejected_with "AccessToken is not exist", record_op (OpFindOne Secrets) w)
  | Some (k, s) =>
      if ISecrets.expiredAt s <? clock w
      then (rejected_with "AccessToken expired", record_op (OpFindOne Secrets) w)
      else (match secrets w !! k with
            | None => rejected_with "Revoke accessToken failed"
            | Some _ => Resolved (apiResponse status.OK "Revoke accessToken success" NoData)
            end,
            mkWorld (users w) (roles w) (delete k (secrets w)) (clock w)
              (OpFindByIdAndDelete Secrets k :: OpFindOne Secrets :: journal w))
  end.
Proof.
  unfold revokeTokenUsers. run.
  destruct (findOne_latest _ _) as [[k s]|]; cbn; [|reflexivity].
  destruct (ISecrets.expiredAt s <? clock w); cbn; [reflexivity|].
  destruct (secrets w !! k); reflexivity.
Qed.

Lemma revokeTokenUsers_empty w :
  revokeTokenUsers (Some DTORevokeToken.empty) w
  = (rejected_with "AccessToken is not exist", record_op (OpFindOne Secrets) w).
Proof.
  unfold revokeTokenUsers, try_catch, bind, secrets_findOne_latest. cbn.
  by rewrite findOne_latest_no_id.
Qed.

(** C8 (as amended): with no body at all, [healthTokenUsers] and
    [revokeTokenUsers] reject with the bad-request status and the message
    "AccessToken expired" before any call on the models: the world, with
    its record of calls, is returned as it was.  That response is the one
    they give for an expired session, not one of its own. *)
Theorem absent_body_rejected (w : World) :
  healthTokenUsers None w
  = (Rejected (apiResponse status.BAD_REQUEST "AccessToken expired" NoData), w) ∧
  revokeTokenUsers None w
  = (Rejected (apiResponse status.BAD_REQUEST "AccessToken expired" NoData), w) ∧
  (∀ id k s, latest_for id (secrets w) k s → ISecrets.expiredAt s < clock w →
     (healthTokenUsers (Some (DTOHealthToken.mk id)) w).1 = (healthTokenUsers None w).1 ∧
     (revokeTokenUsers (Some (DTORevokeToken.mk id)) w).1 = (revokeTokenUsers None w).1).
Proof.
  do 2 (split; [reflexivity|]). intros id k s Hl Hlt.
  rewrite healthTokenUsers_cases, revokeTokenUsers_cases.
  apply latest_for_findOne in Hl. rewrite Hl.
  destruct (Z.ltb_spec (ISecrets.expiredAt s) (clock w)); [done|lia].
Qed.

Lemma revokeTokenUsers_resolved id w r w' :
  revokeTokenUsers (Some (DTORevokeToken.mk id)) w = (Resolved r, w') →
  ∃ k s, latest_for id (secrets w) k s ∧ clock w ≤ ISecrets.expiredAt s ∧
    secrets w' = delete k (secrets w) ∧ users w' = users w ∧ roles w' = roles w.
Proof.
  rewrite revokeTokenUsers_cases.
  destruct (findOne_latest _ _) as [[k s]|] eqn:Hf; [|discriminate].
  destruct (Z.ltb_spec (ISecrets.expiredAt s) (clock w)); [discriminate|].
  intros Heq. injection Heq as _ <-. exists k, s.
  by apply latest_for_findOne in Hf.
Qed.

Lemma sessions_of_delete id k (c : gmap ObjectId ISecrets.t) :
  sessions_of id (delete k c) = delete k (sessions_of id c).
Proof. unfold sessions_of. apply map_filter_delete. Qed.

Lemma sessions_of_lookup id (c : gmap ObjectId ISecrets.t) k s :
  sessions_of id c !! k = Some s ↔ c !! k = Some s ∧ ISecrets.resourceBy s = id.
Proof. unfold sessions_of. by rewrite map_lookup_filter_Some. Qed.

(** C9: a successful [revokeTokenUsers] deletes exactly one session
    record, the most recently inserted one of the subject; every other
    record, older records of the same subject included, is unchanged, so
    that the subject is left with one record fewer; users and roles are
    untouched. *)
Theorem revokeTokenUsers_deletes_latest (id : ObjectId) (w w' : World) (r : APIResponse) :
  revokeTokenUsers (Some (DTORevokeToken.mk id)) w = (Resolved r, w') →
  ∃ k s, latest_for id (secrets w) k s ∧
    secrets w' !! k = None ∧
    (∀ k', k' ≠ k → secrets w' !! k' = secrets w !! k') ∧
    size (sessions_of id (secrets w)) = S (size (sessions_of id (secrets w'))) ∧
    users w' = users w ∧ roles w' = roles w.
Proof.
  intros Hrun. apply revokeTokenUsers_resolved in Hrun
    as (k & s & Hl & _ & Hsec & Hu & Hr).
  exists k, s. rewrite Hsec. split; [done|].
  split; [apply lookup_delete_eq|].
  split; [by intros k' Hne; apply lookup_delete_ne|].
  split; [|done].
  rewrite sessions_of_delete.
  assert (sessions_of id (secrets w) !! k = Some s) as Hin.
  { apply sessions_of_lookup. by destruct Hl as (? & ? & _). }
  rewrite map_size_delete, Hin.
  assert (size (sessions_of id (secrets w)) ≠ 0%nat)
    by (apply (map_size_ne_0_lookup_2 _ k); eauto).
  lia.
Qed.

(** C4 (as amended): when [revokeTokenUsers] succeeds for a subject that
    held exactly one session record, a following [healthTokenUsers] for
    that subject, at any later reading of the clock, rejects with
    "AccessToken is not exist". *)
Theorem revoke_then_health_single (id : ObjectId) (w w' : World) (r : APIResponse) :
  revokeTokenUsers (Some (DTORevokeToken.mk id)) w = (Resolved r, w') →
  size (sessions_of id (secrets w)) = 1%nat →
  ∀ w2, secrets w2 = secrets w' →
    (healthTokenUsers (Some (DTOHealthToken.mk id)) w2).1
    = rejected_with "AccessToken is not exist".
Proof.
  intros Hrun Hone w2 Hsame.
  apply revokeTokenUsers_resolved in Hrun as (k & s & Hl & _ & Hsec & _).
  rewrite healthTokenUsers_cases. cbn [fst].
  assert (findOne_latest (by_resource id) (secrets w2) = None) as ->; [|done].
  apply no_session_findOne. rewrite Hsame, Hsec. intros k' s' Hk' Hid.
  assert (delete k (sessions_of id (secrets w)) !! k' = Some s') as Hin.
  { rewrite <- sessions_of_delete. by apply sessions_of_lookup. }
  assert (size (delete k (sessions_of id (secrets w))) = 0%nat) as Hz.
  { rewrite map_size_delete.
    assert (sessions_of id (secrets w) !! k = Some s) as ->
      by (apply sessions_of_lookup; by destruct Hl as (? & ? & _)).
    lia. }
  apply map_size_empty_inv in Hz. rewrite Hz, lookup_empty in Hin. done.
Qed.

(** ** Refresh *)

Lemma latest_login_findOne token c k s :
  findOne_latest (by_accessToken token "login") c = Some (k, s) ↔ latest_login token c k s.
Proof.
  unfold latest_login, by_accessToken. split.
  - intros Hf. apply findOne_latest_Some in Hf as (Hk & Hq & Hmax).
    apply andb_true_iff in Hq as [Ht Hty%bool_decide_eq_true].
    apply bool_decide_eq_true in Ht. do 3 (split; [done|]).
    intros k' s' Hk' Ht' Hty'. apply (Hmax k' s' Hk').
    apply andb_true_iff. split; by apply bool_decide_eq_true.
  - intros (Hk & Ht & Hty & Hmax). apply findOne_latest_intro; [done| |].
    + apply andb_true_iff. split; by apply bool_decide_eq_true.
    + intros k' s' Hk' Hq. apply andb_true_iff in Hq as [Ht' Hty'%bool_decide_eq_true].
      apply bool_decide_eq_true in Ht'. by apply (Hmax k' s' Hk').
Qed.

Lemma findOne_by_id id (c : gmap ObjectId IUsers.t) :
  findOne (by_id id) c =
  match c !! id with
  | Some u => if IUsers.deletedAt u is None then Some (id, u) else None
  | None => None
  end.
Proof.
  destruct (findOne (by_id id) c) as [[k u]|] eqn:Hf.
  - apply findOne_Some in Hf as [Hk Hq]. unfold by_id in Hq.
    apply andb_true_iff in Hq as [->%bool_decide_eq_true Hd%bool_decide_eq_true].
    by rewrite Hk, Hd.
  - destruct (c !! id) as [u|] eqn:Hc; [|done].
    rewrite findOne_None in Hf. specialize (Hf id u Hc). unfold by_id in Hf.
    destruct (IUsers.deletedAt u); [done|].
    rewrite !bool_decide_eq_true_2 in Hf by done. done.
Qed.

Lemma refreshTokenUsers_cases body w :
  refreshTokenUsers body w =
  match findOne_latest (by_accessToken (DTORefreshToken.accessToken body) "login") (secrets w) with
  | None => (rejected_with "AccessToken is not exist", record_op (OpFindOne Secrets) w)
  | Some (k, s) =>
      if ISecrets.expiredAt s >? clock w
      then (rejected_with "Your accessToken is not expired", record_op (OpFindOne Secrets) w)
      else
        match users w !! ISecrets.resourceBy s with
        | None =>
            (rejected_with (cannot_read "_id"),
             record_op (OpFindOne Users) (record_op (OpFindOne Secrets) w))
        | Some u =>
            match IUsers.deletedAt u with
            | Some _ =>
                (rejected_with (cannot_read "_id"),
                 record_op (OpFindOne Users) (record_op (OpFindOne Secrets) w))
            | None =>
                match roles w !! IUsers.roleId u with
                | None => (rejected_with (cannot_read "name"), after_reads w)
                | Some role =>
                    let token := refreshToken
                      (mkSign (mkPayload (ISecrets.resourceBy s) (IUsers.email u) (IRoles.name role))
                         JWT_SECRET_KEY (mkOptions "1d" "node")) (clock w) in
                    let expiry := clock w + 1 * Pkg.days in
                    (Resolved (apiResponse status.OK "Refresh accessToken success"
                                 (TokenRes token expiry (IRoles.name role))),
                     mkWorld (users w) (roles w)
                       (alter (λ old, ISecrets.mk token (ISecrets.refreshToken old) "login"
                                        (ISecrets.resourceBy s) expiry) k (secrets w))
                       (clock w)
                       (OpFindByIdAndUpdate Secrets k :: journal (after_reads w)))
                end
            end
        end
  end.
Proof.
  unfold refreshTokenUsers, after_reads, try_catch, bind, secrets_findOne_latest,
    users_findOne_populate. cbn.
  destruct (findOne_latest _ _) as [[k s]|]; cbn; [|reflexivity].
  unfold Pkg.dateFormat.
  destruct (ISecrets.expiredAt s >? clock w); cbn; [reflexivity|].
  rewrite findOne_by_id.
  destruct (users w !! ISecrets.resourceBy s) as [u|]; cbn; [|reflexivity].
  destruct (IUsers.deletedAt u); cbn; [reflexivity|].
  destruct (roles w !! IUsers.roleId u); reflexivity.
Qed.

Lemma subject_of_Some w id u role :
  subject_of w id = Some (u, role) →
  users w !! id = Some u ∧ IUsers.deletedAt u = None ∧ roles w !! IUsers.roleId u = Some role.
Proof.
  unfold subject_of. destruct (users w !! id) as [u'|]; [|done].
  destruct (IUsers.deletedAt u') eqn:Hd; [done|].
  destruct (roles w !! IUsers.roleId u') eqn:Hr; [|done].
  by intros [= <- <-].
Qed.

(** C1 (as amended): when [refreshTokenUsers] finds a "login" record for
    the access token, it rejects with "Your accessToken is not expired"
    if the record's [expiredAt] is strictly later than now; if
    [expiredAt <= now], the user the record refers to still exists, is
    not soft-deleted and has a role that resolves, it resolves, and the
    expiry it returns and stores in that record is strictly later than
    the old one. *)
Theorem refreshTokenUsers_expiry (body : DTORefreshToken.t) (w : World)
    (k : ObjectId) (s : ISecrets.t) :
  latest_login (DTORefreshToken.accessToken body) (secrets w) k s →
  (clock w < ISecrets.expiredAt s →
     (refreshTokenUsers body w).1 = rejected_with "Your accessToken is not expired") ∧
  (ISecrets.expiredAt s ≤ clock w →
     is_Some (subject_of w (ISecrets.resourceBy s)) →
     ∃ token expiry role w' s',
       refreshTokenUsers body w
       = (Resolved (apiResponse status.OK "Refresh accessToken success"
                      (TokenRes token expiry role)), w') ∧
       secrets w' !! k = Some s' ∧
       ISecrets.expiredAt s' = expiry ∧
       ISecrets.expiredAt s < expiry).
Proof.
  intros Hl. apply latest_login_findOne in Hl as Hf.
  rewrite refreshTokenUsers_cases, Hf. split.
  - intros Hlt. destruct (Z.gtb_spec (ISecrets.expiredAt s) (clock w)); [done|lia].
  - intros Hle [[u role] Hsub].
    apply subject_of_Some in Hsub as (Hu & Hd & Hr).
    destruct (Z.gtb_spec (ISecrets.expiredAt s) (clock w)); [lia|].
    rewrite Hu, Hd, Hr. cbn zeta.
    eexists _, _, _, _, _. split; [reflexivity|]. cbn [secrets].
    destruct Hl as [Hk _]. rewrite lookup_alter_eq, Hk. cbn.
    split; [reflexivity|]. split; [reflexivity|]. unfold Pkg.days. lia.
Qed.



(** C7: when the matched record has [expiredAt <= now] but the user its
    [resourceBy] refers to is absent or soft-deleted, [refreshTokenUsers]
    rejects (the read of [_id] from [null] is caught and answered as a
    bad request) and leaves the session records, users and roles as they
    were. *)
Theorem refreshTokenUsers_subject_gone (body : DTORefreshToken.t) (w : World)
    (k : ObjectId) (s : ISecrets.t) :
  latest_login (DTORefreshToken.accessToken body) (secrets w) k s →
  ISecrets.expiredAt s ≤ clock w →
  (users w !! ISecrets.resourceBy s = None ∨
   ∃ u d, users w !! ISecrets.resourceBy s = Some u ∧ IUsers.deletedAt u = Some d) →
  ∃ r w', refreshTokenUsers body w = (Rejected r, w') ∧
          stat_code r = status.BAD_REQUEST ∧
          stat_message r = cannot_read "_id" ∧
          secrets w' = secrets w ∧ users w' = users w ∧ roles w' = roles w.
Proof.
  intros Hl Hle Hgone. apply latest_login_findOne in Hl.
  rewrite refreshTokenUsers_cases, Hl.
  destruct (Z.gtb_spec (ISecrets.expiredAt s) (clock w)); [lia|].
  destruct Hgone as [->|(u & d & -> & ->)]; by eexists _, _.
Qed.

(** ** Login *)

Lemma loginUsers_unknown body w :
  findOne (by_email (DTOLogin.email body)) (users w) = None →
  loginUsers body w
  = (rejected_with "Email is not registered", record_op (OpFindOne Users) w).
Proof.
  intros Hf. unfold loginUsers, try_catch, bind, users_findOne_populate. cbn.
  by rewrite Hf.
Qed.

Lemma loginUsers_mismatch body w k u :
  findOne (by_email (DTOLogin.email body)) (users w) = Some (k, u) →
  IUsers.active u = true →
  comparePassword (DTOLogin.password body) (IUsers.password u) = false →
  loginUsers body w
  = (rejected_with "Email or password failed",
     record_op (OpPopulate Roles) (record_op (OpFindOne Users) w)).
Proof.
  intros Hf Hact Hcmp. unfold loginUsers, try_catch, bind, users_findOne_populate. cbn.
  by rewrite Hf, Hact, Hcmp.
Qed.

(** C2 (as amended): a login whose email matches no non-deleted user and
    a login with the email of an active user but a password the hasher
    does not accept both reject with the bad-request status and create no
    session record, but with different messages: "Email is not
    registered" for the former, "Email or password failed" for the
    latter. *)
Theorem loginUsers_unknown_vs_mismatch (w : World) (unknown wrong : DTOLogin.t)
    (k : ObjectId) (u : IUsers.t) :
  (∀ k' u', users w !! k' = Some u' → IUsers.email u' = DTOLogin.email unknown →
            IUsers.deletedAt u' ≠ None) →
  findOne (by_email (DTOLogin.email wrong)) (users w) = Some (k, u) →
  IUsers.active u = true →
  comparePassword (DTOLogin.password wrong) (IUsers.password u) = false →
  ∃ r1 r2 w1 w2,
    loginUsers unknown w = (Rejected r1, w1) ∧
    loginUsers wrong w = (Rejected r2, w2) ∧
    stat_code r1 = status.BAD_REQUEST ∧ stat_code r2 = status.BAD_REQUEST ∧
    stat_message r1 = "Email is not registered" ∧
    stat_message r2 = "Email or password failed" ∧
    secrets w1 = secrets w ∧ secrets w2 = secrets w.
Proof.
  intros Hnone Hf Hact Hcmp.
  assert (findOne (by_email (DTOLogin.email unknown)) (users w) = None) as Hf0.
  { apply findOne_None. intros k' u' Hk'. unfold by_email.
    destruct (decide (IUsers.email u' = DTOLogin.email unknown)) as [He|He].
    - rewrite (bool_decide_eq_false_2 (IUsers.deletedAt u' = None)) by eauto.
      apply andb_false_r.
    - by rewrite (bool_decide_eq_false_2 _ He). }
  rewrite (loginUsers_unknown _ _ Hf0), (loginUsers_mismatch _ _ _ _ Hf Hact Hcmp).
  by eexists _, _, _, _.
Qed.

(** ** Registration *)

Lemma registerUsers_cases body w :
  registerUsers body w =
  match findOne (by_email (DTORegister.email body)) (users w) with
  | Some _ =>
      (rejected_with ("Email " ++ DTORegister.email body ++ " already taken"),
       record_op (OpFindOne Users) w)
  | None =>
      (Resolved (apiResponse status.OK "Register new user account success" NoData),
       mkWorld (<[fresh_id (users w) :=
                    IUsers.mk (DTORegister.email body) (hashPassword (DTORegister.password body))
                      (DTORegister.active body) (DTORegister.roleId body) None]> (users w))
         (roles w) (secrets w) (clock w)
         (OpCreate Users :: OpFindOne Users :: journal w))
  end.
Proof.
  unfold registerUsers, try_catch, bind, users_findOne. cbn.
  destruct (findOne _ _) as [[k u]|]; reflexivity.
Qed.

(** C5: a successful [registerUsers] stores one new user whose credential
    is the hash of the submitted password, which differs from the
    password itself for a hasher that never returns its input; as long as
    that user keeps the email and is not soft-deleted, every further
    registration with the same email rejects with "Email ... already
    taken" and stores nothing. *)
Theorem registerUsers_then_conflict
    (hash_not_plain : ∀ plain, hashPassword plain ≠ plain)
    (body : DTORegister.t) (w w' : World) (r : APIResponse) :
  registerUsers body w = (Resolved r, w') →
  ∃ k u,
    users w !! k = None ∧ users w' !! k = Some u ∧
    IUsers.email u = DTORegister.email body ∧
    IUsers.deletedAt u = None ∧
    IUsers.password u = hashPassword (DTORegister.password body) ∧
    IUsers.password u ≠ DTORegister.password body ∧
    ∀ (again : DTORegister.t) (w2 : World) (u2 : IUsers.t),
      DTORegister.email again = DTORegister.email body →
      users w2 !! k = Some u2 →
      IUsers.email u2 = DTORegister.email body →
      IUsers.deletedAt u2 = None →
      (registerUsers again w2).1
      = rejected_with ("Email " ++ DTORegister.email body ++ " already taken") ∧
      users (registerUsers again w2).2 = users w2.
Proof.
  rewrite registerUsers_cases.
  destruct (findOne _ _) as [[k0 u0]|] eqn:Hf; [discriminate|].
  intros [= <- <-]. eexists (fresh_id (users w)), _. cbn [users].
  split; [apply fresh_id_fresh|]. split; [apply lookup_insert_eq|]. cbn.
  do 3 (split; [done|]). split; [apply hash_not_plain|].
  intros again w2 u2 He Hk He2 Hd. rewrite registerUsers_cases, He.
  destruct (findOne _ (users w2)) as [[k1 u1]|] eqn:Hf2; [done|].
  rewrite findOne_None in Hf2. specialize (Hf2 _ _ Hk). unfold by_email in Hf2.
  rewrite !bool_decide_eq_true_2 in Hf2 by done. done.
Qed.

(** ** Further properties of the session operations *)

Lemma findOne_latest_insert_fresh {A} (q : ObjectId → A → bool)
    (c : gmap ObjectId A) (doc : A) :
  q (fresh_id c) doc = true →
  findOne_latest q (<[fresh_id c := doc]> c) = Some (fresh_id c, doc).
Proof.
  intros Hq. apply findOne_latest_intro; [apply lookup_insert_eq|done|].
  intros k' v' Hk' _. destruct (decide (k' = fresh_id c)) as [->|Hne]; [lia|].
  rewrite lookup_insert_ne in Hk' by done.
  assert (k' < fresh_id c)%N by (apply fresh_id_above; eauto). lia.
Qed.

Lemma findOne_insert_only {A} (q : ObjectId → A → bool)
    (c : gmap ObjectId A) (k : ObjectId) (doc : A) :
  findOne q c = None → q k doc = true →
  findOne q (<[k := doc]> c) = Some (k, doc).
Proof.
  intros Hnone Hq. rewrite findOne_None in Hnone.
  destruct (findOne q (<[k := doc]> c)) as [[k0 v0]|] eqn:Hf.
  - apply findOne_Some in Hf as [Hk0 Hq0].
    destruct (decide (k0 = k)) as [->|Hne].
    + rewrite lookup_insert_eq in Hk0. congruence.
    + rewrite lookup_insert_ne in Hk0 by done. rewrite (Hnone _ _ Hk0) in Hq0. done.
  - rewrite findOne_None in Hf. rewrite (Hf k doc) in Hq; [done|apply lookup_insert_eq].
Qed.

(** What [loginUsers] answers, by cases; [w1] is the world after the
    reads on the users and the roles. *)
Lemma loginUsers_cases body w :
  loginUsers body w =
  let w1 := record_op (OpPopulate Roles) (record_op (OpFindOne Users) w) in
  match findOne (by_email (DTOLogin.email body)) (users w) with
  | None => (rejected_with "Email is not registered", record_op (OpFindOne Users) w)
  | Some (k, u) =>
      if negb (IUsers.active u)
      then (rejected_with "User account is not active, please contact admin", w1)
      else if negb (comparePassword (DTOLogin.password body) (IUsers.password u))
      then (rejected_with "Email or password failed", w1)
      else
        match roles w !! IUsers.roleId u with
        | None => (rejected_with (cannot_read "name"), w1)
        | Some role =>
            let token := signToken
              (mkSign (mkPayload k (IUsers.email u) (IRoles.name role))
                 JWT_SECRET_KEY (mkOptions "1d" "node")) (clock w) in
            (Resolved (apiResponse status.OK "Login success"
                         (LoginRes (t_accessToken token) (t_refreshToken token)
                            (clock w + 1 * Pkg.days) (clock w + 30 * Pkg.days)
                            (IRoles.name role))),
             mkWorld (users w) (roles w)
               (<[fresh_id (secrets w) :=
                    ISecrets.mk (t_accessToken token) (t_refreshToken token) "login" k
                      (clock w + 1 * Pkg.days)]> (secrets w))
               (clock w) (OpCreate Secrets :: journal w1))
        end
  end.
Proof.
  unfold loginUsers, try_catch, bind, users_findOne_populate. cbn.
  destruct (findOne _ _) as [[k u]|]; cbn; [|reflexivity].
  destruct (IUsers.active u); cbn; [|reflexivity].
  destruct (comparePassword _ _); cbn; [|reflexivity].
  destruct (roles w !! IUsers.roleId u); reflexivity.
Qed.

Lemma loginUsers_resolved body w r w' :
  loginUsers body w = (Resolved r, w') →
  ∃ k u role token,
    findOne (by_email (DTOLogin.email body)) (users w) = Some (k, u) ∧
    IUsers.active u = true ∧
    comparePassword (DTOLogin.password body) (IUsers.password u) = true ∧
    roles w !! IUsers.roleId u = Some role ∧
    r = apiResponse status.OK "Login success"
          (LoginRes (t_accessToken token) (t_refreshToken token)
             (clock w + 1 * Pkg.days) (clock w + 30 * Pkg.days) (IRoles.name role)) ∧
    secrets w' = <[fresh_id (secrets w) :=
                     ISecrets.mk (t_accessToken token) (t_refreshToken token) "login" k
                       (clock w + 1 * Pkg.days)]> (secrets w) ∧
    users w' = users w ∧ roles w' = roles w.
Proof.
  rewrite loginUsers_cases. cbn zeta.
  destruct (findOne _ _) as [[k u]|] eqn:Hf; [|discriminate].
  destruct (IUsers.active u) eqn:Ha; cbn; [|discriminate].
  destruct (comparePassword _ _) eqn:Hc; cbn; [|discriminate].
  destruct (roles w !! IUsers.roleId u) as [role|] eqn:Hr; [|discriminate].
  intros [= <- <-]. by eexists k, u, role, _.
Qed.

(** X1: a login by an active user whose password the hasher accepts and
    whose role resolves is answered with a token bundle expiring in 1 and
    30 days, and stores exactly one new "login" record for that user,
    under an identifier larger than all existing ones; existing records,
    users and roles are unchanged. *)
Theorem loginUsers_creates_session (body : DTOLogin.t) (w : World)
    (k : ObjectId) (u : IUsers.t) (role : IRoles.t) :
  findOne (by_email (DTOLogin.email body)) (users w) = Some (k, u) →
  IUsers.active u = true →
  comparePassword (DTOLogin.password body) (IUsers.password u) = true →
  roles w !! IUsers.roleId u = Some role →
  ∃ access refresh sid w',
    loginUsers body w
    = (Resolved (apiResponse status.OK "Login success"
                   (LoginRes access refresh (clock w + Pkg.days)
                      (clock w + 30 * Pkg.days) (IRoles.name role))), w') ∧
    (∀ k' s', secrets w !! k' = Some s' → (k' < sid)%N) ∧
    secrets w' = <[sid := ISecrets.mk access refresh "login" k (clock w + Pkg.days)]>
                   (secrets w) ∧
    size (secrets w') = S (size (secrets w)) ∧
    users w' = users w ∧ roles w' = roles w.
Proof.
  intros Hf Ha Hc Hr. rewrite loginUsers_cases, Hf, Ha, Hc, Hr. cbn [negb]. cbn zeta.
  eexists _, _, (fresh_id (secrets w)), _.
  split; [reflexivity|]. cbn [secrets users roles snd].
  split; [by intros k' s' Hk'; apply fresh_id_above; eauto|].
  split; [reflexivity|].
  split; [|done]. apply map_size_insert_None, fresh_id_fresh.
Qed.

(** X2: after a successful login, the health check of that user
    resolves at every reading of the clock up to one day after the
    login. *)
Theorem login_then_healthy (body : DTOLogin.t) (w w' : World) (r : APIResponse) :
  loginUsers body w = (Resolved r, w') →
  ∃ k u, findOne (by_email (DTOLogin.email body)) (users w) = Some (k, u) ∧
    ∀ t, t ≤ clock w + Pkg.days →
      (healthTokenUsers (Some (DTOHealthToken.mk k)) (at_time t w')).1
      = Resolved (apiResponse status.OK "AccessToken healthy" NoData).
Proof.
  intros Hrun. apply loginUsers_resolved in Hrun
    as (k & u & role & token & Hf & _ & _ & _ & _ & Hsec & _).
  exists k, u. split; [done|]. intros t Ht.
  rewrite healthTokenUsers_cases. unfold at_time. cbn [fst secrets clock].
  rewrite Hsec, findOne_latest_insert_fresh
    by (unfold by_resource; by apply bool_decide_eq_true).
  cbn [ISecrets.expiredAt].
  destruct (Z.ltb_spec (clock w + 1 * Pkg.days) t); [lia|done].
Qed.

(** X3: the access token a login returns cannot be refreshed before it
    expires: up to one day after the login, [refreshTokenUsers] rejects
    it with "Your accessToken is not expired". *)
Theorem login_then_refresh_too_early (body : DTOLogin.t) (w w' : World)
    (access refresh : string) (e1 e2 : Date) (role : string) :
  loginUsers body w
  = (Resolved (apiResponse status.OK "Login success"
                 (LoginRes access refresh e1 e2 role)), w') →
  ∀ t, t < clock w + Pkg.days →
    (refreshTokenUsers (DTORefreshToken.mk access) (at_time t w')).1
    = rejected_with "Your accessToken is not expired".
Proof.
  intros Hrun t Ht. apply loginUsers_resolved in Hrun
    as (k & u & rl & token & _ & _ & _ & _ & Hr & Hsec & _).
  injection Hr as -> -> _ _ _.
  rewrite refreshTokenUsers_cases. unfold at_time. cbn [fst secrets clock DTORefreshToken.accessToken].
  rewrite Hsec, findOne_latest_insert_fresh.
  - cbn [ISecrets.expiredAt].
    destruct (Z.gtb_spec (clock w + 1 * Pkg.days) t); [done|lia].
  - unfold by_accessToken. cbn. by rewrite !bool_decide_eq_true_2.
Qed.

(** X4: revoking right after a login undoes it: up to one day after a
    successful login, [revokeTokenUsers] for that user resolves and the
    session records are exactly those from before the login. *)
Theorem login_then_revoke_restores (body : DTOLogin.t) (w w' : World) (r : APIResponse) :
  loginUsers body w = (Resolved r, w') →
  ∃ k u, findOne (by_email (DTOLogin.email body)) (users w) = Some (k, u) ∧
    ∀ t, t ≤ clock w + Pkg.days →
      let revoked := revokeTokenUsers (Some (DTORevokeToken.mk k)) (at_time t w') in
      revoked.1 = Resolved (apiResponse status.OK "Revoke accessToken success" NoData) ∧
      secrets revoked.2 = secrets w.
Proof.
  intros Hrun. apply loginUsers_resolved in Hrun
    as (k & u & role & token & Hf & _ & _ & _ & _ & Hsec & _).
  exists k, u. split; [done|]. intros t Ht revoked. subst revoked.
  rewrite revokeTokenUsers_cases. unfold at_time. cbn [secrets clock].
  rewrite Hsec, findOne_latest_insert_fresh
    by (unfold by_resource; by apply bool_decide_eq_true).
  cbn [ISecrets.expiredAt].
  destruct (Z.ltb_spec (clock w + 1 * Pkg.days) t); [lia|].
  rewrite lookup_insert_eq. cbn. split; [done|].
  rewrite delete_insert_eq. apply delete_id, fresh_id_fresh.
Qed.

(** X5: a login never changes the users or the roles, and a rejected
    login stores no session record. *)
Theorem loginUsers_frame (body : DTOLogin.t) (w : World) :
  let out := loginUsers body w in
  users out.2 = users w ∧ roles out.2 = roles w ∧
  (∀ r, out.1 = Rejected r → secrets out.2 = secrets w).
Proof.
  intros out. subst out. rewrite loginUsers_cases. cbn zeta.
  destruct (findOne _ _) as [[k u]|]; [|done].
  destruct (IUsers.active u); cbn; [|done].
  destruct (comparePassword _ _); cbn; [|done].
  destruct (roles w !! IUsers.roleId u); [|done].
  cbn. do 2 (split; [done|]). intros r [=].
Qed.

(** X6: a login for an account that is not active rejects with "User
    account is not active, please contact admin" whatever the password,
    before the password is compared, and stores nothing. *)
Theorem loginUsers_inactive (body : DTOLogin.t) (w : World) (k : ObjectId) (u : IUsers.t) :
  findOne (by_email (DTOLogin.email body)) (users w) = Some (k, u) →
  IUsers.active u = false →
  (loginUsers body w).1
  = rejected_with "User account is not active, please contact admin" ∧
  secrets (loginUsers body w).2 = secrets w.
Proof.
  intros Hf Ha. rewrite loginUsers_cases, Hf, Ha. done.
Qed.

(** X7: [revokeTokenUsers] and [healthTokenUsers] accept and reject the
    same requests: one resolves exactly when the other does, a rejection
    of one is the rejection of the other, and the answer "Revoke
    accessToken failed" is never given. *)
Theorem revoke_agrees_with_health (id : ObjectId) (w : World) :
  let revoked := (revokeTokenUsers (Some (DTORevokeToken.mk id)) w).1 in
  let health := (healthTokenUsers (Some (DTOHealthToken.mk id)) w).1 in
  ((∃ r, revoked = Resolved r) ↔ (∃ r, health = Resolved r)) ∧
  (∀ r, revoked = Rejected r ↔ health = Rejected r) ∧
  revoked ≠ rejected_with "Revoke accessToken failed".
Proof.
  intros revoked health. subst revoked health.
  rewrite revokeTokenUsers_cases, healthTokenUsers_cases. cbn [fst].
  destruct (findOne_latest _ _) as [[k s]|] eqn:Hf; cbn [fst].
  - apply findOne_latest_Some in Hf as [Hk _].
    destruct (ISecrets.expiredAt s <? clock w); cbn [fst]; rewrite ?Hk.
    + split; [|split]; [split; intros [r [=]]|done|discriminate].
    + split; [|split]; [split; eauto|split; discriminate|discriminate].
  - split; [|split]; [split; intros [r [=]]|done|discriminate].
Qed.

(** X8: a rejected [revokeTokenUsers] deletes nothing, and no call
    changes the users or the roles. *)
Theorem revokeTokenUsers_frame (body : option DTORevokeToken.t) (w : World) :
  let out := revokeTokenUsers body w in
  users out.2 = users w ∧ roles out.2 = roles w ∧
  (∀ r, out.1 = Rejected r → secrets out.2 = secrets w).
Proof.
  intros out. subst out. destruct body as [[id|]|]; [|by rewrite revokeTokenUsers_empty|done].
  rewrite revokeTokenUsers_cases.
  destruct (findOne_latest _ _) as [[k s]|] eqn:Hf; [|done].
  apply findOne_latest_Some in Hf as [Hk _].
  destruct (ISecrets.expiredAt s <? clock w); [done|].
  cbn. rewrite Hk. do 2 (split; [done|]). intros r [=].
Qed.

(** X9: a session whose latest record has expired cannot be revoked:
    [revokeTokenUsers] rejects with "AccessToken expired" and the record
    stays in the store. *)
Theorem revoke_expired_keeps_record (id : ObjectId) (w : World)
    (k : ObjectId) (s : ISecrets.t) :
  latest_for id (secrets w) k s →
  ISecrets.expiredAt s < clock w →
  let out := revokeTokenUsers (Some (DTORevokeToken.mk id)) w in
  out.1 = rejected_with "AccessToken expired" ∧ secrets out.2 !! k = Some s.
Proof.
  intros Hl Hlt out. subst out. rewrite revokeTokenUsers_cases.
  apply latest_for_findOne in Hl as Hf. rewrite Hf.
  destruct (Z.ltb_spec (ISecrets.expiredAt s) (clock w)); [|lia].
  split; [done|]. by destruct Hl.
Qed.

(** X10: a rejected [refreshTokenUsers] writes nothing, and no call
    changes the users or the roles. *)
Theorem refreshTokenUsers_frame (body : DTORefreshToken.t) (w : World) :
  let out := refreshTokenUsers body w in
  users out.2 = users w ∧ roles out.2 = roles w ∧
  (∀ r, out.1 = Rejected r → secrets out.2 = secrets w).
Proof.
  intros out. subst out. rewrite refreshTokenUsers_cases.
  destruct (findOne_latest _ _) as [[k s]|]; [|done].
  destruct (ISecrets.expiredAt s >? clock w); [done|].
  destruct (users w !! ISecrets.resourceBy s) as [u|]; [|done].
  destruct (IUsers.deletedAt u); [done|].
  destruct (roles w !! IUsers.roleId u); [|done].
  cbn. do 2 (split; [done|]). intros r [=].
Qed.

(** X11: an access token held by no record of type "login" is not
    refreshable: [refreshTokenUsers] rejects with "AccessToken is not
    exist" after the one lookup, whatever other records the token is
    on. *)
Theorem refreshTokenUsers_unknown_token (body : DTORefreshToken.t) (w : World) :
  (∀ k s, secrets w !! k = Some s →
          ISecrets.accessToken s = DTORefreshToken.accessToken body →
          ISecrets.resourceType s ≠ "login") →
  refreshTokenUsers body w
  = (rejected_with "AccessToken is not exist", record_op (OpFindOne Secrets) w).
Proof.
  intros Hnone. rewrite refreshTokenUsers_cases.
  assert (findOne_latest (by_accessToken (DTORefreshToken.accessToken body) "login")
            (secrets w) = None) as ->; [|done].
  apply findOne_latest_None. intros k s Hk. unfold by_accessToken.
  destruct (decide (ISecrets.accessToken s = DTORefreshToken.accessToken body)) as [He|He].
  - rewrite (bool_decide_eq_false_2 (ISecrets.resourceType s = "login")) by eauto.
    apply andb_false_r.
  - by rewrite (bool_decide_eq_false_2 _ He).
Qed.

Lemma findOne_latest_sessions_of id (c : gmap ObjectId ISecrets.t) :
  findOne_latest (by_resource id) (sessions_of id c) = findOne_latest (by_resource id) c.
Proof.
  destruct (findOne_latest (by_resource id) c) as [[k s]|] eqn:Hf.
  - apply latest_for_findOne in Hf as (Hk & Hid & Hmax). apply latest_for_findOne.
    split; [by apply sessions_of_lookup|]. split; [done|].
    intros k' s' Hk' Hid'. apply sessions_of_lookup in Hk' as [Hk' _]. eauto.
  - rewrite no_session_findOne in Hf. apply no_session_findOne.
    intros k s Hk. apply sessions_of_lookup in Hk as [Hk _]. eauto.
Qed.

(** X12: the health of a subject depends on that subject's records and
    the clock only: in two worlds that hold the same records for the
    subject and read the same time, the health check answers the same,
    whatever the records of other subjects are. *)
Theorem health_of_own_sessions (id : ObjectId) (w1 w2 : World) :
  sessions_of id (secrets w1) = sessions_of id (secrets w2) →
  clock w1 = clock w2 →
  (healthTokenUsers (Some (DTOHealthToken.mk id)) w1).1
  = (healthTokenUsers (Some (DTOHealthToken.mk id)) w2).1.
Proof.
  intros Hsame Hclock. rewrite !healthTokenUsers_cases. cbn [fst].
  rewrite <- (findOne_latest_sessions_of id (secrets w1)),
          <- (findOne_latest_sessions_of id (secrets w2)), Hsame, Hclock.
  done.
Qed.

(** X13: with the store unchanged, a health check that resolves at some
    time resolves at every earlier time: a session that has been seen
    expired stays expired until a login or a refresh. *)
Theorem health_earlier (id : ObjectId) (w : World) (t t' : Date) (r : APIResponse) :
  t ≤ t' →
  (healthTokenUsers (Some (DTOHealthToken.mk id)) (at_time t' w)).1 = Resolved r →
  (healthTokenUsers (Some (DTOHealthToken.mk id)) (at_time t w)).1 = Resolved r.
Proof.
  intros Hle. rewrite !healthTokenUsers_cases. unfold at_time. cbn [fst secrets clock].
  destruct (findOne_latest _ _) as [[k s]|]; [|done].
  destruct (Z.ltb_spec (ISecrets.expiredAt s) t'); [discriminate|].
  destruct (Z.ltb_spec (ISecrets.expiredAt s) t); [lia|done].
Qed.

(** X14: a refresh revives the session it updates: when the refreshed
    record is the latest one of its subject, the health check of that
    subject resolves at every reading of the clock up to one day after
    the refresh. *)
Theorem refresh_then_healthy (body : DTORefreshToken.t) (w w' : World)
    (r : APIResponse) (k : ObjectId) (s : ISecrets.t) :
  refreshTokenUsers body w = (Resolved r, w') →
  latest_login (DTORefreshToken.accessToken body) (secrets w) k s →
  latest_for (ISecrets.resourceBy s) (secrets w) k s →
  ∀ t, t ≤ clock w + Pkg.days →
    (healthTokenUsers (Some (DTOHealthToken.mk (ISecrets.resourceBy s))) (at_time t w')).1
    = Resolved (apiResponse status.OK "AccessToken healthy" NoData).
Proof.
  intros Hrun Hlogin Hlatest t Ht.
  rewrite refreshTokenUsers_cases in Hrun.
  apply latest_login_findOne in Hlogin. rewrite Hlogin in Hrun.
  destruct (ISecrets.expiredAt s >? clock w); [discriminate|].
  destruct (users w !! ISecrets.resourceBy s) as [u|]; [|discriminate].
  destruct (IUsers.deletedAt u); [discriminate|].
  destruct (roles w !! IUsers.roleId u) as [role|]; [|discriminate].
  cbn zeta in Hrun. injection Hrun as _ <-.
  rewrite healthTokenUsers_cases. unfold at_time. cbn [fst secrets clock].
  destruct Hlatest as (Hk & _ & Hmax).
  erewrite findOne_latest_intro; cycle 1.
  - rewrite lookup_alter_eq, Hk. reflexivity.
  - unfold by_resource. by apply bool_decide_eq_true.
  - intros k' s' Hk' Hq. unfold by_resource in Hq. apply bool_decide_eq_true in Hq.
    destruct (decide (k' = k)) as [->|Hne]; [lia|].
    rewrite lookup_alter_ne in Hk' by done. eauto.
  - cbn [ISecrets.expiredAt].
    destruct (Z.ltb_spec (clock w + 1 * Pkg.days) t); [lia|done].
Qed.

(** ** Further properties of registration *)

(** X15: a registration creates no session and touches no role; a
    rejected one stores nothing, a successful one adds exactly one user
    and keeps every stored user as it was. *)
Theorem registerUsers_frame (body : DTORegister.t) (w : World) :
  let out := registerUsers body w in
  secrets out.2 = secrets w ∧ roles out.2 = roles w ∧
  (∀ r, out.1 = Rejected r → users out.2 = users w) ∧
  (∀ r, out.1 = Resolved r →
     size (users out.2) = S (size (users w)) ∧
     ∀ k u, users w !! k = Some u → users out.2 !! k = Some u).
Proof.
  intros out. subst out. rewrite registerUsers_cases.
  destruct (findOne _ _) as [[k0 u0]|]; cbn [fst snd secrets roles users].
  - do 3 (split; [done|]). intros r [=].
  - do 2 (split; [done|]). split; [intros r [=]|]. intros r _.
    split; [apply map_size_insert_None, fresh_id_fresh|].
    intros k u Hk. rewrite lookup_insert_ne; [done|].
    intros <-. by rewrite fresh_id_fresh in Hk.
Qed.

Lemma by_email_false (email : string) (c : gmap ObjectId IUsers.t) :
  findOne (by_email email) c = None →
  ∀ k u, c !! k = Some u → IUsers.email u = email → IUsers.deletedAt u ≠ None.
Proof.
  intros Hnone k u Hk He Hd. rewrite findOne_None in Hnone.
  specialize (Hnone k u Hk). unfold by_email in Hnone.
  rewrite !bool_decide_eq_true_2 in Hnone by done. done.
Qed.

(** X16: registration keeps emails unique: if no two users that are
    not soft-deleted share an email before [registerUsers], none do
    after it, whatever its outcome. *)
Theorem registerUsers_keeps_unique_emails (body : DTORegister.t) (w : World) :
  unique_emails (users w) →
  unique_emails (users (registerUsers body w).2).
Proof.
  intros Huniq. rewrite registerUsers_cases.
  destruct (findOne _ _) as [[k0 u0]|] eqn:Hf; [done|]. cbn [snd users].
  pose proof (by_email_false _ _ Hf) as Hfree.
  intros k1 k2 u1 u2 Hk1 Hk2 Hd1 Hd2 He.
  destruct (decide (k1 = fresh_id (users w))) as [->|Hn1],
           (decide (k2 = fresh_id (users w))) as [->|Hn2]; [done| | |].
  - rewrite lookup_insert_eq in Hk1. rewrite lookup_insert_ne in Hk2 by done.
    injection Hk1 as <-. cbn in He. by destruct (Hfree k2 u2 Hk2).
  - rewrite lookup_insert_eq in Hk2. rewrite lookup_insert_ne in Hk1 by done.
    injection Hk2 as <-. cbn in He. by destruct (Hfree k1 u1 Hk1).
  - rewrite lookup_insert_ne in Hk1, Hk2 by done. by eapply Huniq.
Qed.

(** X17: registration and login compose: after a successful
    registration as an active user with an existing role, a login with
    the same email and password resolves with "Login success", provided
    the hasher accepts a password against its own hash. *)
Theorem register_then_login (body : DTORegister.t) (w w' : World)
    (r : APIResponse) (role : IRoles.t) :
  comparePassword (DTORegister.password body) (hashPassword (DTORegister.password body))
  = true →
  registerUsers body w = (Resolved r, w') →
  DTORegister.active body = true →
  roles w !! DTORegister.roleId body = Some role →
  ∀ t, ∃ access refresh w'',
    loginUsers (DTOLogin.mk (DTORegister.email body) (DTORegister.password body))
      (at_time t w')
    = (Resolved (apiResponse status.OK "Login success"
                   (LoginRes access refresh (t + Pkg.days) (t + 30 * Pkg.days)
                      (IRoles.name role))), w'').
Proof.
  intros Hcmp Hrun Hact Hrole t. rewrite registerUsers_cases in Hrun.
  destruct (findOne _ _) as [[k0 u0]|] eqn:Hf; [discriminate|].
  injection Hrun as _ <-.
  rewrite loginUsers_cases. unfold at_time. cbn [users roles secrets clock DTOLogin.email
    DTOLogin.password].
  rewrite (findOne_insert_only _ _ _ _ Hf)
    by (unfold by_email; cbn; by rewrite !bool_decide_eq_true_2).
  cbn [IUsers.active IUsers.password IUsers.roleId].
  rewrite Hact, Hcmp, Hrole. cbn [negb]. cbn zeta.
  eexists _, _, _. reflexivity.
Qed.

(** ** User management *)

Lemma createUsers_cases body w :
  createUsers body w =
  match findOne (by_email (DTOUsers.email body)) (users w) with
  | None =>
      (UsersRejected (apiResponse status.BAD_REQUEST "Email already taken" NoData),
       record_op (OpFindOne Users) w)
  | Some _ =>
      (UsersResolved (usersResponse status.OK "Create new users account success"
                        (Literal "checkUser")),
       mkWorld (<[fresh_id (users w) :=
                    IUsers.mk (DTOUsers.email body) (hashPassword (DTOUsers.password body))
                      (DTOUsers.active body) (DTOUsers.roleId body) None]> (users w))
         (roles w) (secrets w) (clock w)
         (OpCreate Users :: OpFindOne Users :: journal w))
  end.
Proof.
  unfold createUsers, try_catch_users, bind, users_findOne. cbn.
  destruct (findOne _ _) as [[k u]|]; reflexivity.
Qed.

(** X18: [createUsers] refuses an email nobody holds: when no user that
    is not soft-deleted has the email, it rejects with "Email already
    taken" and stores nothing. *)
Theorem createUsers_rejects_free_email (body : DTOUsers.t) (w : World) :
  (∀ k u, users w !! k = Some u → IUsers.email u = DTOUsers.email body →
          IUsers.deletedAt u ≠ None) →
  createUsers body w
  = (UsersRejected (apiResponse status.BAD_REQUEST "Email already taken" NoData),
     record_op (OpFindOne Users) w).
Proof.
  intros Hfree. rewrite createUsers_cases.
  assert (findOne (by_email (DTOUsers.email body)) (users w) = None) as ->; [|done].
  apply findOne_None. intros k u Hk. unfold by_email.
  destruct (decide (IUsers.email u = DTOUsers.email body)) as [He|He].
  - rewrite (bool_decide_eq_false_2 (IUsers.deletedAt u = None)) by eauto.
    apply andb_false_r.
  - by rewrite (bool_decide_eq_false_2 _ He).
Qed.

(** X19: [createUsers] resolves only for an email that is already held,
    and then stores a second user with it: after every successful call
    two different users that are not soft-deleted share the email, the
    new one with the hash of the submitted password. *)
Theorem createUsers_duplicates_email (body : DTOUsers.t) (w w' : World)
    (r : UsersResponse) :
  createUsers body w = (UsersResolved r, w') →
  ∃ k1 k2 u1 u2,
    k1 ≠ k2 ∧
    users w !! k1 = Some u1 ∧ users w' !! k1 = Some u1 ∧
    users w !! k2 = None ∧ users w' !! k2 = Some u2 ∧
    IUsers.email u1 = DTOUsers.email body ∧ IUsers.deletedAt u1 = None ∧
    IUsers.email u2 = DTOUsers.email body ∧ IUsers.deletedAt u2 = None ∧
    IUsers.password u2 = hashPassword (DTOUsers.password body) ∧
    ¬ unique_emails (users w').
Proof.
  rewrite createUsers_cases.
  destruct (findOne _ _) as [[k1 u1]|] eqn:Hf; [|discriminate].
  intros [= <- <-]. apply findOne_Some in Hf as [Hk1 Hq].
  unfold by_email in Hq.
  apply andb_true_iff in Hq as [He%bool_decide_eq_true Hd%bool_decide_eq_true].
  assert (k1 ≠ fresh_id (users w)) as Hne
    by (intros ->; by rewrite fresh_id_fresh in Hk1).
  eexists k1, (fresh_id (users w)), u1, _. cbn [users].
  split; [done|]. split; [done|].
  split; [by rewrite lookup_insert_ne|].
  split; [apply fresh_id_fresh|].
  split; [apply lookup_insert_eq|]. cbn.
  do 5 (split; [done|]).
  intros Huniq. apply Hne.
  eapply (Huniq k1 (fresh_id (users w))); [by rewrite lookup_insert_ne|
    apply lookup_insert_eq|done|done|done].
Qed.

(** X20: [getUsersById] resolves with exactly the stored document when
    the identifier is held by a user that is not soft-deleted, rejects
    with "Users data is not exist" otherwise, and only reads. *)
Theorem getUsersById_spec (params : DTOUsersId.t) (w : World) :
  getUsersById params w =
  (match users w !! DTOUsersId.id params with
   | Some u =>
       if IUsers.deletedAt u is None
       then UsersResolved (usersResponse status.OK "Users already to use"
                             (OneUser (DTOUsersId.id params) u))
       else UsersRejected (apiResponse status.BAD_REQUEST "Users data is not exist" NoData)
   | None => UsersRejected (apiResponse status.BAD_REQUEST "Users data is not exist" NoData)
   end, record_op (OpFindOne Users) w).
Proof.
  unfold getUsersById, try_catch_users, bind, users_findOne. cbn.
  rewrite findOne_by_id.
  destruct (users w !! DTOUsersId.id params) as [u|]; [|reflexivity].
  destruct (IUsers.deletedAt u); reflexivity.
Qed.

Lemma getAllUsers_documents (w : World) :
  ∃ documents,
    getAllUsers w
    = (UsersResolved (usersResponse status.OK "Users already to use"
                        (ManyUsers documents)), w) ∧
    length documents = size (users w) ∧
    ∀ k u, (k, u) ∈ documents ↔ users w !! k = Some u.
Proof.
  exists (merge_sort by_identifier (map_to_list (users w))). split; [reflexivity|].
  split; [by rewrite merge_sort_Permutation, length_map_to_list|].
  intros k u. by rewrite merge_sort_Permutation, elem_of_map_to_list.
Qed.

(** X21: [getAllUsers] does not filter on [deletedAt]: it always
    resolves, changes nothing and lists as many documents as are stored,
    so a soft-deleted user is listed by it although [getUsersById]
    rejects that user's identifier. *)
Theorem soft_deleted_listed_not_fetched (w : World) (k : ObjectId) (u : IUsers.t)
    (d : Date) :
  users w !! k = Some u →
  IUsers.deletedAt u = Some d →
  (∃ documents,
     getAllUsers w
     = (UsersResolved (usersResponse status.OK "Users already to use"
                         (ManyUsers documents)), w) ∧
     length documents = size (users w) ∧ (k, u) ∈ documents) ∧
  (getUsersById (DTOUsersId.mk k) w).1
  = UsersRejected (apiResponse status.BAD_REQUEST "Users data is not exist" NoData).
Proof.
  intros Hk Hd. split.
  - destruct (getAllUsers_documents w) as (l & Hrun & Hlen & Hin).
    exists l. split; [done|]. split; [done|]. by apply Hin.
  - unfold getUsersById, try_catch_users, bind, users_findOne. cbn.
    by rewrite findOne_by_id, Hk, Hd.
Qed.

Lemma findOne_by_id_gone id (c : gmap ObjectId IUsers.t) :
  (c !! id = None ∨ ∃ u d, c !! id = Some u ∧ IUsers.deletedAt u = Some d) →
  findOne (by_id id) c = None.
Proof.
  intros Hgone. rewrite findOne_by_id.
  by destruct Hgone as [->|(u & d & -> & ->)].
Qed.

(** X22: [deleteUsersById] refuses an identifier that no user holds, or
    that only a soft-deleted user holds: it rejects with "Users data is
    not exist" after its first lookup, and the call that would write is
    never reached, whatever that call does. *)
Theorem deleteUsersById_unknown_id (params : DTOUsersId.t) (w : World) :
  (users w !! DTOUsersId.id params = None ∨
   ∃ u d, users w !! DTOUsersId.id params = Some u ∧ IUsers.deletedAt u = Some d) →
  deleteUsersById params w
  = (UsersRejected (apiResponse status.BAD_REQUEST "Users data is not exist" NoData),
     record_op (OpFindOne Users) w).
Proof.
  intros Hgone. unfold deleteUsersById, try_catch_users, bind, users_findOne. cbn.
  by rewrite (findOne_by_id_gone _ _ Hgone).
Qed.

(** X23: [updateUsersById] refuses an identifier that no user holds, or
    that only a soft-deleted user holds: it rejects with "Users data is
    not exist" after its first lookup, and the call that would write is
    never reached, whatever that call does and whatever the body is. *)
Theorem updateUsersById_unknown_id (body : DTOUsers.t) (params : DTOUsersId.t) (w : World) :
  (users w !! DTOUsersId.id params = None ∨
   ∃ u d, users w !! DTOUsersId.id params = Some u ∧ IUsers.deletedAt u = Some d) →
  updateUsersById body params w
  = (UsersRejected (apiResponse status.BAD_REQUEST "Users data is not exist" NoData),
     record_op (OpFindOne Users) w).
Proof.
  intros Hgone. unfold updateUsersById, try_catch_users, bind, users_findOne. cbn.
  by rewrite (findOne_by_id_gone _ _ Hgone).
Qed.

(** ** Status codes, ordering and the full login-refresh cycle *)

(** X24: whatever fails in a session operation, the caller sees a bad
    request: every rejection of [loginUsers], [refreshTokenUsers],
    [healthTokenUsers] and [revokeTokenUsers] has status 400 and no
    payload. *)
Theorem session_rejections_are_bad_requests (w : World) (login : DTOLogin.t)
    (refresh : DTORefreshToken.t) (health : option DTOHealthToken.t)
    (revoke : option DTORevokeToken.t) (r : APIResponse) :
  (loginUsers login w).1 = Rejected r ∨
  (refreshTokenUsers refresh w).1 = Rejected r ∨
  (healthTokenUsers health w).1 = Rejected r ∨
  (revokeTokenUsers revoke w).1 = Rejected r →
  stat_code r = status.BAD_REQUEST ∧ data r = NoData.
Proof.
  intros [H|[H|[H|H]]].
  - rewrite loginUsers_cases in H. cbn zeta in H.
    destruct (findOne _ _) as [[k u]|]; [|by injection H as <-].
    destruct (IUsers.active u); cbn in H; [|by injection H as <-].
    destruct (comparePassword _ _); cbn in H; [|by injection H as <-].
    destruct (roles w !! IUsers.roleId u); [discriminate|by injection H as <-].
  - rewrite refreshTokenUsers_cases in H.
    destruct (findOne_latest _ _) as [[k s]|]; [|by injection H as <-].
    destruct (ISecrets.expiredAt s >? clock w); [by injection H as <-|].
    destruct (users w !! ISecrets.resourceBy s) as [u|]; [|by injection H as <-].
    destruct (IUsers.deletedAt u); [by injection H as <-|].
    destruct (roles w !! IUsers.roleId u); [discriminate|by injection H as <-].
  - destruct health as [[id|]|]; [|rewrite healthTokenUsers_empty in H|];
      [|by injection H as <- ..].
    rewrite healthTokenUsers_cases in H. cbn [fst] in H.
    destruct (findOne_latest _ _) as [[k s]|]; [|by injection H as <-].
    destruct (ISecrets.expiredAt s <? clock w); [by injection H as <-|discriminate].
  - destruct revoke as [[id|]|]; [|rewrite revokeTokenUsers_empty in H|];
      [|by injection H as <- ..].
    rewrite revokeTokenUsers_cases in H.
    destruct (findOne_latest _ _) as [[k s]|]; [|by injection H as <-].
    destruct (ISecrets.expiredAt s <? clock w); [by injection H as <-|].
    cbn [fst] in H. destruct (secrets w !! k); [discriminate|by injection H as <-].
Qed.

(** X25: a refresh never reorders sessions: whatever its outcome, the
    record that was the latest of a subject before [refreshTokenUsers] is
    still that subject's latest record after it, with the same refresh
    token. *)
Theorem refresh_keeps_latest (body : DTORefreshToken.t) (w : World)
    (id k : ObjectId) (s : ISecrets.t) :
  latest_for id (secrets w) k s →
  ∃ s', latest_for id (secrets (refreshTokenUsers body w).2) k s' ∧
        ISecrets.refreshToken s' = ISecrets.refreshToken s.
Proof.
  intros (Hk & Hid & Hmax). rewrite refreshTokenUsers_cases.
  destruct (findOne_latest _ _) as [[k0 s0]|] eqn:Hf; [|by exists s].
  apply findOne_latest_Some in Hf as [Hk0 _].
  destruct (ISecrets.expiredAt s0 >? clock w); [by exists s|].
  destruct (users w !! ISecrets.resourceBy s0) as [u|]; [|by exists s].
  destruct (IUsers.deletedAt u); [by exists s|].
  destruct (roles w !! IUsers.roleId u) as [role|]; [|by exists s].
  cbn zeta. cbn [snd secrets].
  set (f := λ old : ISecrets.t, ISecrets.mk _ (ISecrets.refreshToken old) "login"
                                  (ISecrets.resourceBy s0) _).
  assert (∀ k' s', alter f k0 (secrets w) !! k' = Some s' →
            ∃ old, secrets w !! k' = Some old ∧
                   ISecrets.resourceBy s' = ISecrets.resourceBy old) as Hback.
  { intros k' s'. destruct (decide (k' = k0)) as [->|Hne].
    - rewrite lookup_alter_eq, Hk0. intros [= <-]. by exists s0.
    - rewrite lookup_alter_ne by done. intros Hk'. by exists s'. }
  destruct (decide (k = k0)) as [->|Hne].
  - assert (s0 = s) as -> by congruence.
    exists (f s). split; [|done]. split; [by rewrite lookup_alter_eq, Hk|].
    split; [done|]. intros k' s' Hk' Hid'.
    destruct (Hback k' s' Hk') as (old & Hold & Hby). apply (Hmax k' old Hold). congruence.
  - exists s. split; [|done]. split; [by rewrite lookup_alter_ne|].
    split; [done|]. intros k' s' Hk' Hid'.
    destruct (Hback k' s' Hk') as (old & Hold & Hby). apply (Hmax k' old Hold). congruence.
Qed.

(** X26: the full cycle: once the access token a login returned has
    expired, that is from one day after the login on, [refreshTokenUsers]
    accepts it, answers with an expiry one day after the refresh and the
    role the login answered with, and stores that expiry in the record
    the login created. *)
Theorem login_then_refresh_after_expiry (body : DTOLogin.t) (w w' : World)
    (access refresh : string) (e1 e2 : Date) (role : string) :
  loginUsers body w
  = (Resolved (apiResponse status.OK "Login success"
                 (LoginRes access refresh e1 e2 role)), w') →
  ∀ t, clock w + Pkg.days ≤ t →
    ∃ token w'' sid s',
      refreshTokenUsers (DTORefreshToken.mk access) (at_time t w')
      = (Resolved (apiResponse status.OK "Refresh accessToken success"
                     (TokenRes token (t + Pkg.days) role)), w'') ∧
      secrets w !! sid = None ∧
      secrets w'' !! sid = Some s' ∧
      ISecrets.accessToken s' = token ∧
      ISecrets.refreshToken s' = refresh ∧
      ISecrets.expiredAt s' = t + Pkg.days.
Proof.
  intros Hrun t Ht. apply loginUsers_resolved in Hrun
    as (k & u & rl & token & Hf & _ & _ & Hrole & Hr & Hsec & Hu & Hro).
  injection Hr as -> -> _ _ ->.
  apply findOne_Some in Hf as [Hk Hq]. unfold by_email in Hq.
  apply andb_true_iff in Hq as [_ Hd%bool_decide_eq_true].
  rewrite refreshTokenUsers_cases. unfold at_time.
  cbn [fst secrets clock users roles DTORefreshToken.accessToken].
  rewrite Hsec, findOne_latest_insert_fresh
    by (unfold by_accessToken; cbn; by rewrite !bool_decide_eq_true_2).
  cbn [ISecrets.expiredAt ISecrets.resourceBy].
  destruct (Z.gtb_spec (clock w + 1 * Pkg.days) t); [lia|].
  rewrite Hu, Hk, Hd, Hro, Hrole. cbn zeta.
  eexists _, _, (fresh_id (secrets w)), _.
  split; [reflexivity|]. cbn [secrets].
  split; [apply fresh_id_fresh|].
  split; [by rewrite lookup_alter_eq, lookup_insert_eq|]. done.
Qed.

End UsersService.

(** ** The service on concrete worlds *)

Lemma sample_hash_not_plain plain : Sample.hashPassword plain ≠ plain.
Proof.
  unfold Sample.hashPassword. intros Heq.
  apply (f_equal String.length) in Heq. cbv in Heq. lia.
Qed.

(** A store shaped like [Scenario.stale_latest] arises from the service
    itself: after two logins and a refresh of the first token once it has
    expired, the older record of the subject outlives the latest one. *)
Example stale_latest_reachable :
  let login := loginUsers Sample.comparePassword Sample.signToken Sample.JWT_SECRET_KEY
                 (DTOLogin.mk "a@x.com" "pw1") in
  let w1 := (login (Scenario.world ∅ 0)).2 in
  let w2 := (login (at_time 1000 w1)).2 in
  let w3 := (refreshTokenUsers Sample.refreshToken Sample.JWT_SECRET_KEY
               (DTORefreshToken.mk "access:a@x.com:admin@0")
               (at_time (Pkg.days + 500) w2)).2 in
  (ISecrets.expiredAt <$> secrets w3)
  = {[ 1%N := 2 * Pkg.days + 500; 2%N := Pkg.days + 1000 ]}.
Proof. vm_compute. reflexivity. Qed.

(** Two logins in a row leave the subject with two valid records, as in
    [Scenario.two_live]. *)
Example two_live_reachable :
  let login := loginUsers Sample.comparePassword Sample.signToken Sample.JWT_SECRET_KEY
                 (DTOLogin.mk "a@x.com" "pw1") in
  let w2 := (login (at_time 1000 (login (Scenario.world ∅ 0)).2)).2 in
  ((λ s, (ISecrets.resourceBy s, ISecrets.expiredAt s)) <$> secrets w2)
  = {[ 1%N := (5%N, Pkg.days); 2%N := (5%N, Pkg.days + 1000) ]}.
Proof. vm_compute. reflexivity. Qed.

(** C3, counterexample: the subject holds a record that is still valid
    at 250 (identifier 1, expiring at 300), yet the health check rejects,
    because it only consults the latest record (identifier 2, expired at
    200). *)
Lemma health_ignores_older_record :
  let w := Scenario.world Scenario.stale_latest 250 in
  (∃ k s, secrets w !! k = Some s ∧ ISecrets.resourceBy s = 5%N ∧
          clock w ≤ ISecrets.expiredAt s) ∧
  (healthTokenUsers (Some (DTOHealthToken.mk 5)) w).1 = rejected_with "AccessToken expired" ∧
  ¬ ∃ r, (healthTokenUsers (Some (DTOHealthToken.mk 5)) w).1 = Resolved r.
Proof.
  split; [|split].
  - exists 1%N, (Scenario.session "t1" 5 300). by vm_compute.
  - vm_compute. reflexivity.
  - intros [r Hr]. vm_compute in Hr. discriminate.
Qed.

(** C4, counterexample: the subject holds two valid records; the
    revocation succeeds and removes the latest one, and the health check
    that follows resolves on the older record instead of rejecting with
    "AccessToken is not exist". *)
Lemma revoke_leaves_older_session :
  let w := Scenario.world Scenario.two_live 50 in
  let revoked := revokeTokenUsers (Some (DTORevokeToken.mk 5)) w in
  revoked.1 = Resolved (apiResponse status.OK "Revoke accessToken success" NoData) ∧
  (healthTokenUsers (Some (DTOHealthToken.mk 5)) revoked.2).1
  = Resolved (apiResponse status.OK "AccessToken healthy" NoData) ∧
  (healthTokenUsers (Some (DTOHealthToken.mk 5)) revoked.2).1
  ≠ rejected_with "AccessToken is not exist".
Proof.
  split; [|split]; [vm_compute; reflexivity ..|].
  intros Hr. vm_compute in Hr. discriminate.
Qed.

(** C2, counterexample: against the same users, an unregistered email
    and a registered email with a wrong password are answered with
    different messages. *)
Lemma login_messages_differ :
  let login := loginUsers Sample.comparePassword Sample.signToken Sample.JWT_SECRET_KEY in
  let w := Scenario.world ∅ 0 in
  (login (DTOLogin.mk "b@x.com" "pw1") w).1 = rejected_with "Email is not registered" ∧
  (login (DTOLogin.mk "a@x.com" "bad") w).1 = rejected_with "Email or password failed" ∧
  (login (DTOLogin.mk "b@x.com" "pw1") w).1 ≠ (login (DTOLogin.mk "a@x.com" "bad") w).1.
Proof.
  split; [|split]; [vm_compute; reflexivity ..|].
  intros Hr. vm_compute in Hr. discriminate.
Qed.

(** C1, counterexample: the record has expired and the user it refers
    to exists and is not soft-deleted, but the user's role does not
    resolve: the refresh rejects (the read of [name] from [null] is
    caught), it does not succeed. *)
Lemma refresh_rejects_without_role :
  let w := Dangling.world 150 in
  let s := Scenario.session "t1" 8 100 in
  latest_login "t1" (secrets w) 1%N s ∧
  ISecrets.expiredAt s ≤ clock w ∧
  users w !! ISecrets.resourceBy s = Some Dangling.dave ∧
  IUsers.deletedAt Dangling.dave = None ∧
  (refreshTokenUsers Sample.refreshToken Sample.JWT_SECRET_KEY
     (DTORefreshToken.mk "t1") w).1 = rejected_with (cannot_read "name") ∧
  ¬ ∃ r, (refreshTokenUsers Sample.refreshToken Sample.JWT_SECRET_KEY
            (DTORefreshToken.mk "t1") w).1 = Resolved r.
Proof.
  intros w s. split; [|split; [|split; [|split; [|split]]]].
  - apply latest_login_findOne. vm_compute. reflexivity.
  - vm_compute. discriminate.
  - vm_compute. reflexivity.
  - reflexivity.
  - vm_compute. reflexivity.
  - intros [r Hr]. vm_compute in Hr. discriminate.
Qed.

(** C8, counterexample: a body that is present but carries no subject
    identifier passes the guard: both methods make their lookup on the
    session records and answer "AccessToken is not exist". *)
Lemma body_without_id_is_looked_up :
  let w := Scenario.world ∅ 50 in
  healthTokenUsers (Some DTOHealthToken.empty) w
  = (rejected_with "AccessToken is not exist", record_op (OpFindOne Secrets) w) ∧
  revokeTokenUsers (Some DTORevokeToken.empty) w
  = (rejected_with "AccessToken is not exist", record_op (OpFindOne Secrets) w) ∧
  journal (healthTokenUsers (Some DTOHealthToken.empty) w).2 = [OpFindOne Secrets] ∧
  journal (revokeTokenUsers (Some DTORevokeToken.empty) w).2 = [OpFindOne Secrets].
Proof. repeat split; vm_compute; reflexivity. Qed.

(** ** The theorems at concrete inputs *)

Lemma absent_body_rejected_witness :
  let w := Scenario.world Scenario.single 150 in
  (healthTokenUsers (Some (DTOHealthToken.mk 5)) w).1 = (healthTokenUsers None w).1 ∧
  (revokeTokenUsers (Some (DTORevokeToken.mk 5)) w).1 = (revokeTokenUsers None w).1.
Proof.
  intros w. destruct (absent_body_rejected w) as (_ & _ & Hsame).
  apply (Hsame 5%N 1%N (Scenario.session "t1" 5 100)).
  - apply latest_for_findOne. vm_compute. reflexivity.
  - vm_compute. reflexivity.
Defined.


Lemma refreshTokenUsers_expiry_witness :
  let refresh := refreshTokenUsers Sample.refreshToken Sample.JWT_SECRET_KEY
                   (DTORefreshToken.mk "t1") in
  (refresh (Scenario.world Scenario.single 50)).1
  = rejected_with "Your accessToken is not expired" ∧
  ∃ token expiry role w' s',
    refresh (Scenario.world Scenario.single 150)
    = (Resolved (apiResponse status.OK "Refresh accessToken success"
                   (TokenRes token expiry role)), w') ∧
    secrets w' !! 1%N = Some s' ∧ ISecrets.expiredAt s' = expiry ∧ 100 < expiry.
Proof.
  intros refresh. split.
  - apply (refreshTokenUsers_expiry Sample.refreshToken Sample.JWT_SECRET_KEY
             (DTORefreshToken.mk "t1") (Scenario.world Scenario.single 50)
             1%N (Scenario.session "t1" 5 100)).
    + apply latest_login_findOne. vm_compute. reflexivity.
    + vm_compute. reflexivity.
  - apply (refreshTokenUsers_expiry Sample.refreshToken Sample.JWT_SECRET_KEY
             (DTORefreshToken.mk "t1") (Scenario.world Scenario.single 150)
             1%N (Scenario.session "t1" 5 100)).
    + apply latest_login_findOne. vm_compute. reflexivity.
    + vm_compute. discriminate.
    + vm_compute. eexists. reflexivity.
Defined.

Lemma loginUsers_unknown_vs_mismatch_witness :
  let login := loginUsers Sample.comparePassword Sample.signToken Sample.JWT_SECRET_KEY in
  let w := Scenario.world ∅ 0 in
  ∃ r1 r2 w1 w2,
    login (DTOLogin.mk "b@x.com" "pw1") w = (Rejected r1, w1) ∧
    login (DTOLogin.mk "a@x.com" "bad") w = (Rejected r2, w2) ∧
    stat_code r1 = status.BAD_REQUEST ∧ stat_code r2 = status.BAD_REQUEST ∧
    stat_message r1 = "Email is not registered" ∧
    stat_message r2 = "Email or password failed" ∧
    secrets w1 = secrets w ∧ secrets w2 = secrets w.
Proof.
  intros login w.
  apply (loginUsers_unknown_vs_mismatch Sample.comparePassword Sample.signToken
           Sample.JWT_SECRET_KEY w (DTOLogin.mk "b@x.com" "pw1")
           (DTOLogin.mk "a@x.com" "bad") 5%N Scenario.alice).
  - intros k' u' Hk' He. unfold w, Scenario.world in Hk'. cbn [users] in Hk'.
    apply lookup_singleton_Some in Hk' as [_ <-].
    vm_compute in He. discriminate.
  - vm_compute. reflexivity.
  - reflexivity.
  - vm_compute. reflexivity.
Defined.

Lemma healthTokenUsers_latest_witness :
  ∃ r, (healthTokenUsers (Some (DTOHealthToken.mk 5))
          (Scenario.world Scenario.two_live 150)).1 = Resolved r.
Proof.
  apply (healthTokenUsers_latest 5 (Scenario.world Scenario.two_live 150)).
  exists 2%N, (Scenario.session "t2" 5 200). split.
  - apply latest_for_findOne. vm_compute. reflexivity.
  - vm_compute. discriminate.
Defined.

Lemma revoke_then_health_single_witness :
  let w := Scenario.world Scenario.single 50 in
  let w' := (revokeTokenUsers (Some (DTORevokeToken.mk 5)) w).2 in
  (healthTokenUsers (Some (DTOHealthToken.mk 5)) (at_time 60 w')).1
  = rejected_with "AccessToken is not exist".
Proof.
  intros w w'.
  apply (revoke_then_health_single 5 w w'
           (apiResponse status.OK "Revoke accessToken success" NoData)).
  - vm_compute. reflexivity.
  - vm_compute. reflexivity.
  - reflexivity.
Defined.

Lemma registerUsers_then_conflict_witness :
  let register := registerUsers Sample.hashPassword in
  let body := DTORegister.mk "c@x.com" "pw3" true 1 in
  let w' := (register body (Scenario.world ∅ 0)).2 in
  ∃ k u,
    users w' !! k = Some u ∧
    IUsers.password u = Sample.hashPassword "pw3" ∧
    IUsers.password u ≠ "pw3" ∧
    (register (DTORegister.mk "c@x.com" "other" false 1) w').1
    = rejected_with "Email c@x.com already taken".
Proof.
  intros register body w'.
  destruct (registerUsers_then_conflict Sample.hashPassword sample_hash_not_plain
              body (Scenario.world ∅ 0) w'
              (apiResponse status.OK "Register new user account success" NoData))
    as (k & u & _ & Hk & He & Hd & Hp & Hne & Hagain).
  - vm_compute. reflexivity.
  - exists k, u. do 3 (split; [assumption|]).
    apply (Hagain (DTORegister.mk "c@x.com" "other" false 1) w' u);
      [reflexivity | assumption | assumption | assumption].
Defined.


Lemma refreshTokenUsers_subject_gone_witness :
  let w := Scenario.world Scenario.orphan 150 in
  ∃ r w', refreshTokenUsers Sample.refreshToken Sample.JWT_SECRET_KEY
            (DTORefreshToken.mk "t1") w = (Rejected r, w') ∧
          stat_code r = status.BAD_REQUEST ∧
          stat_message r = cannot_read "_id" ∧
          secrets w' = secrets w ∧ users w' = users w ∧ roles w' = roles w.
Proof.
  intros w.
  apply (refreshTokenUsers_subject_gone Sample.refreshToken Sample.JWT_SECRET_KEY
           (DTORefreshToken.mk "t1") w 1%N (Scenario.session "t1" 9 100)).
  - apply latest_login_findOne. vm_compute. reflexivity.
  - vm_compute. discriminate.
  - left. vm_compute. reflexivity.
Defined.

Lemma revokeTokenUsers_deletes_latest_witness :
  let w := Scenario.world Scenario.two_live 50 in
  let w' := (revokeTokenUsers (Some (DTORevokeToken.mk 5)) w).2 in
  ∃ k s, latest_for 5 (secrets w) k s ∧
    secrets w' !! k = None ∧
    (∀ k', k' ≠ k → secrets w' !! k' = secrets w !! k') ∧
    size (sessions_of 5 (secrets w)) = S (size (sessions_of 5 (secrets w'))) ∧
    users w' = users w ∧ roles w' = roles w.
Proof.
  intros w w'.
  apply (revokeTokenUsers_deletes_latest 5 w w'
           (apiResponse status.OK "Revoke accessToken success" NoData)).
  vm_compute. reflexivity.
Defined.

(** [getAllUsers] on the three-user directory: every user, the
    soft-deleted one included, in the order of insertion. *)
Example getAllUsers_in_order :
  (getAllUsers (Directory.world ∅ 50)).1
  = UsersResolved (usersResponse status.OK "Users already to use"
      (ManyUsers [(5%N, Scenario.alice); (6%N, Directory.bob); (7%N, Directory.carol)])).
Proof. vm_compute. reflexivity. Qed.

(** ** The further properties at concrete inputs *)

Lemma loginUsers_creates_session_witness :
  let w := Scenario.world ∅ 0 in
  ∃ access refresh sid w',
    loginUsers Sample.comparePassword Sample.signToken Sample.JWT_SECRET_KEY
      (DTOLogin.mk "a@x.com" "pw1") w
    = (Resolved (apiResponse status.OK "Login success"
                   (LoginRes access refresh (clock w + Pkg.days)
                      (clock w + 30 * Pkg.days) "admin")), w') ∧
    (∀ k' s', secrets w !! k' = Some s' → (k' < sid)%N) ∧
    secrets w' = <[sid := ISecrets.mk access refresh "login" 5%N (clock w + Pkg.days)]>
                   (secrets w) ∧
    size (secrets w') = S (size (secrets w)) ∧
    users w' = users w ∧ roles w' = roles w.
Proof.
  intros w.
  apply (loginUsers_creates_session Sample.comparePassword Sample.signToken
           Sample.JWT_SECRET_KEY (DTOLogin.mk "a@x.com" "pw1") w 5%N Scenario.alice
           (IRoles.mk "admin")); vm_compute; reflexivity.
Defined.

Lemma login_then_healthy_witness :
  let w := Scenario.world ∅ 0 in
  let body := DTOLogin.mk "a@x.com" "pw1" in
  let w' := (loginUsers Sample.comparePassword Sample.signToken Sample.JWT_SECRET_KEY
               body w).2 in
  ∃ k u, findOne (by_email (DTOLogin.email body)) (users w) = Some (k, u) ∧
    ∀ t, t ≤ clock w + Pkg.days →
      (healthTokenUsers (Some (DTOHealthToken.mk k)) (at_time t w')).1
      = Resolved (apiResponse status.OK "AccessToken healthy" NoData).
Proof.
  intros w body w'.
  apply (login_then_healthy Sample.comparePassword Sample.signToken Sample.JWT_SECRET_KEY
           body w w'
           (apiResponse status.OK "Login success"
              (LoginRes "access:a@x.com:admin@0" "refresh:a@x.com:admin@0"
                 Pkg.days (30 * Pkg.days) "admin"))).
  vm_compute. reflexivity.
Defined.

Lemma login_then_refresh_too_early_witness :
  let w' := (loginUsers Sample.comparePassword Sample.signToken Sample.JWT_SECRET_KEY
               (DTOLogin.mk "a@x.com" "pw1") (Scenario.world ∅ 0)).2 in
  (refreshTokenUsers Sample.refreshToken Sample.JWT_SECRET_KEY
     (DTORefreshToken.mk "access:a@x.com:admin@0") (at_time 1000 w')).1
  = rejected_with "Your accessToken is not expired".
Proof.
  intros w'.
  apply (login_then_refresh_too_early Sample.comparePassword Sample.signToken
           Sample.refreshToken Sample.JWT_SECRET_KEY
           (DTOLogin.mk "a@x.com" "pw1") (Scenario.world ∅ 0) w'
           "access:a@x.com:admin@0" "refresh:a@x.com:admin@0"
           Pkg.days (30 * Pkg.days) "admin").
  - vm_compute. reflexivity.
  - vm_compute. reflexivity.
Defined.

Lemma login_then_revoke_restores_witness :
  let w := Scenario.world Scenario.single 50 in
  let body := DTOLogin.mk "a@x.com" "pw1" in
  let w' := (loginUsers Sample.comparePassword Sample.signToken Sample.JWT_SECRET_KEY
               body w).2 in
  ∃ k u, findOne (by_email (DTOLogin.email body)) (users w) = Some (k, u) ∧
    ∀ t, t ≤ clock w + Pkg.days →
      let revoked := revokeTokenUsers (Some (DTORevokeToken.mk k)) (at_time t w') in
      revoked.1 = Resolved (apiResponse status.OK "Revoke accessToken success" NoData) ∧
      secrets revoked.2 = secrets w.
Proof.
  intros w body w'.
  apply (login_then_revoke_restores Sample.comparePassword Sample.signToken
           Sample.JWT_SECRET_KEY body w w'
           (apiResponse status.OK "Login success"
              (LoginRes "access:a@x.com:admin@50" "refresh:a@x.com:admin@50"
                 (50 + Pkg.days) (50 + 30 * Pkg.days) "admin"))).
  vm_compute. reflexivity.
Defined.

Lemma loginUsers_frame_witness :
  let w := Scenario.world Scenario.single 50 in
  let out := loginUsers Sample.comparePassword Sample.signToken Sample.JWT_SECRET_KEY
               (DTOLogin.mk "a@x.com" "bad") w in
  users out.2 = users w ∧ roles out.2 = roles w ∧
  (∀ r, out.1 = Rejected r → secrets out.2 = secrets w).
Proof.
  exact (loginUsers_frame Sample.comparePassword Sample.signToken Sample.JWT_SECRET_KEY
           (DTOLogin.mk "a@x.com" "bad") (Scenario.world Scenario.single 50)).
Defined.

Lemma loginUsers_inactive_witness :
  let login := loginUsers Sample.comparePassword Sample.signToken Sample.JWT_SECRET_KEY
                 (DTOLogin.mk "b@x.com" "pw2") in
  let w := Directory.world ∅ 0 in
  (login w).1 = rejected_with "User account is not active, please contact admin" ∧
  secrets (login w).2 = secrets w.
Proof.
  intros login w.
  apply (loginUsers_inactive Sample.comparePassword Sample.signToken Sample.JWT_SECRET_KEY
           (DTOLogin.mk "b@x.com" "pw2") w 6%N Directory.bob).
  - vm_compute. reflexivity.
  - reflexivity.
Defined.

Lemma revoke_agrees_with_health_witness :
  let w := Scenario.world Scenario.stale_latest 250 in
  let revoked := (revokeTokenUsers (Some (DTORevokeToken.mk 5)) w).1 in
  let health := (healthTokenUsers (Some (DTOHealthToken.mk 5)) w).1 in
  ((∃ r, revoked = Resolved r) ↔ (∃ r, health = Resolved r)) ∧
  (∀ r, revoked = Rejected r ↔ health = Rejected r) ∧
  revoked ≠ rejected_with "Revoke accessToken failed".
Proof.
  exact (revoke_agrees_with_health 5 (Scenario.world Scenario.stale_latest 250)).
Defined.

Lemma revokeTokenUsers_frame_witness :
  let w := Scenario.world Scenario.stale_latest 250 in
  let out := revokeTokenUsers (Some (DTORevokeToken.mk 5)) w in
  users out.2 = users w ∧ roles out.2 = roles w ∧
  (∀ r, out.1 = Rejected r → secrets out.2 = secrets w).
Proof.
  exact (revokeTokenUsers_frame (Some (DTORevokeToken.mk 5))
           (Scenario.world Scenario.stale_latest 250)).
Defined.

Lemma revoke_expired_keeps_record_witness :
  let w := Scenario.world Scenario.single 150 in
  let out := revokeTokenUsers (Some (DTORevokeToken.mk 5)) w in
  out.1 = rejected_with "AccessToken expired" ∧
  secrets out.2 !! 1%N = Some (Scenario.session "t1" 5 100).
Proof.
  intros w.
  apply (revoke_expired_keeps_record 5 w 1%N (Scenario.session "t1" 5 100)).
  - apply latest_for_findOne. vm_compute. reflexivity.
  - vm_compute. reflexivity.
Defined.

Lemma refreshTokenUsers_frame_witness :
  let w := Scenario.world Scenario.single 50 in
  let out := refreshTokenUsers Sample.refreshToken Sample.JWT_SECRET_KEY
               (DTORefreshToken.mk "t1") w in
  users out.2 = users w ∧ roles out.2 = roles w ∧
  (∀ r, out.1 = Rejected r → secrets out.2 = secrets w).
Proof.
  exact (refreshTokenUsers_frame Sample.refreshToken Sample.JWT_SECRET_KEY
           (DTORefreshToken.mk "t1") (Scenario.world Scenario.single 50)).
Defined.

Lemma refreshTokenUsers_unknown_token_witness :
  let w := Scenario.world Scenario.single 150 in
  refreshTokenUsers Sample.refreshToken Sample.JWT_SECRET_KEY (DTORefreshToken.mk "t0") w
  = (rejected_with "AccessToken is not exist", record_op (OpFindOne Secrets) w).
Proof.
  intros w.
  apply (refreshTokenUsers_unknown_token Sample.refreshToken Sample.JWT_SECRET_KEY
           (DTORefreshToken.mk "t0") w).
  intros k s Hk He. unfold w, Scenario.world, Scenario.single in Hk. cbn [secrets] in Hk.
  apply lookup_singleton_Some in Hk as [_ <-]. vm_compute in He. discriminate.
Defined.

Lemma health_of_own_sessions_witness :
  let others : gmap ObjectId ISecrets.t :=
    {[ 1%N := Scenario.session "t1" 5 100; 2%N := Scenario.session "t9" 9 10 ]} in
  (healthTokenUsers (Some (DTOHealthToken.mk 5)) (Scenario.world Scenario.single 50)).1
  = (healthTokenUsers (Some (DTOHealthToken.mk 5)) (Scenario.world others 50)).1.
Proof.
  intros others.
  apply (health_of_own_sessions 5 (Scenario.world Scenario.single 50)
           (Scenario.world others 50)).
  - vm_compute. reflexivity.
  - reflexivity.
Defined.

Lemma health_earlier_witness :
  (healthTokenUsers (Some (DTOHealthToken.mk 5))
     (at_time 20 (Scenario.world Scenario.two_live 0))).1
  = Resolved (apiResponse status.OK "AccessToken healthy" NoData).
Proof.
  apply (health_earlier 5 (Scenario.world Scenario.two_live 0) 20 150).
  - vm_compute. discriminate.
  - vm_compute. reflexivity.
Defined.

Lemma refresh_then_healthy_witness :
  let w := Scenario.world Scenario.single 150 in
  let w' := (refreshTokenUsers Sample.refreshToken Sample.JWT_SECRET_KEY
               (DTORefreshToken.mk "t1") w).2 in
  (healthTokenUsers (Some (DTOHealthToken.mk 5)) (at_time 1000 w')).1
  = Resolved (apiResponse status.OK "AccessToken healthy" NoData).
Proof.
  intros w w'.
  apply (refresh_then_healthy Sample.refreshToken Sample.JWT_SECRET_KEY
           (DTORefreshToken.mk "t1") w w'
           (apiResponse status.OK "Refresh accessToken success"
              (TokenRes "access:a@x.com:admin@150" (150 + Pkg.days) "admin"))
           1%N (Scenario.session "t1" 5 100)).
  - vm_compute. reflexivity.
  - apply latest_login_findOne. vm_compute. reflexivity.
  - apply latest_for_findOne. vm_compute. reflexivity.
  - vm_compute. discriminate.
Defined.

Lemma registerUsers_frame_witness :
  let w := Scenario.world Scenario.single 50 in
  let out := registerUsers Sample.hashPassword (DTORegister.mk "c@x.com" "pw3" true 1) w in
  secrets out.2 = secrets w ∧ roles out.2 = roles w ∧
  (∀ r, out.1 = Rejected r → users out.2 = users w) ∧
  (∀ r, out.1 = Resolved r →
     size (users out.2) = S (size (users w)) ∧
     ∀ k u, users w !! k = Some u → users out.2 !! k = Some u).
Proof.
  exact (registerUsers_frame Sample.hashPassword (DTORegister.mk "c@x.com" "pw3" true 1)
           (Scenario.world Scenario.single 50)).
Defined.

Lemma registerUsers_keeps_unique_emails_witness :
  unique_emails
    (users (registerUsers Sample.hashPassword (DTORegister.mk "c@x.com" "pw3" true 1)
              (Scenario.world ∅ 0)).2).
Proof.
  apply (registerUsers_keeps_unique_emails Sample.hashPassword
           (DTORegister.mk "c@x.com" "pw3" true 1) (Scenario.world ∅ 0)).
  intros k1 k2 u1 u2 Hk1 Hk2 _ _ _. cbn [users Scenario.world] in Hk1, Hk2.
  apply lookup_singleton_Some in Hk1 as [<- _].
  apply lookup_singleton_Some in Hk2 as [<- _]. reflexivity.
Defined.

Lemma register_then_login_witness :
  let body := DTORegister.mk "c@x.com" "pw3" true 1 in
  let w' := (registerUsers Sample.hashPassword body (Scenario.world ∅ 0)).2 in
  ∃ access refresh w'',
    loginUsers Sample.comparePassword Sample.signToken Sample.JWT_SECRET_KEY
      (DTOLogin.mk "c@x.com" "pw3") (at_time 10 w')
    = (Resolved (apiResponse status.OK "Login success"
                   (LoginRes access refresh (10 + Pkg.days) (10 + 30 * Pkg.days)
                      "admin")), w'').
Proof.
  intros body w'.
  apply (register_then_login Sample.hashPassword Sample.comparePassword Sample.signToken
           Sample.JWT_SECRET_KEY body (Scenario.world ∅ 0) w'
           (apiResponse status.OK "Register new user account success" NoData)
           (IRoles.mk "admin")).
  - vm_compute. reflexivity.
  - vm_compute. reflexivity.
  - reflexivity.
  - vm_compute. reflexivity.
Defined.

Lemma createUsers_rejects_free_email_witness :
  let w := Scenario.world ∅ 0 in
  createUsers Sample.hashPassword (DTOUsers.mk "z@x.com" "pw9" true 1) w
  = (UsersRejected (apiResponse status.BAD_REQUEST "Email already taken" NoData),
     record_op (OpFindOne Users) w).
Proof.
  intros w.
  apply (createUsers_rejects_free_email Sample.hashPassword
           (DTOUsers.mk "z@x.com" "pw9" true 1) w).
  intros k u Hk He. cbn [users Scenario.world w] in Hk.
  apply lookup_singleton_Some in Hk as [_ <-]. vm_compute in He. discriminate.
Defined.

Lemma createUsers_duplicates_email_witness :
  let w := Scenario.world ∅ 0 in
  let body := DTOUsers.mk "a@x.com" "pw9" true 1 in
  let w' := (createUsers Sample.hashPassword body w).2 in
  ∃ k1 k2 u1 u2,
    k1 ≠ k2 ∧
    users w !! k1 = Some u1 ∧ users w' !! k1 = Some u1 ∧
    users w !! k2 = None ∧ users w' !! k2 = Some u2 ∧
    IUsers.email u1 = "a@x.com" ∧ IUsers.deletedAt u1 = None ∧
    IUsers.email u2 = "a@x.com" ∧ IUsers.deletedAt u2 = None ∧
    IUsers.password u2 = Sample.hashPassword "pw9" ∧
    ¬ unique_emails (users w').
Proof.
  intros w body w'.
  apply (createUsers_duplicates_email Sample.hashPassword body w w'
           (usersResponse status.OK "Create new users account success"
              (Literal "checkUser"))).
  vm_compute. reflexivity.
Defined.

Lemma soft_deleted_listed_not_fetched_witness :
  let w := Directory.world ∅ 50 in
  (∃ documents,
     getAllUsers w
     = (UsersResolved (usersResponse status.OK "Users already to use"
                         (ManyUsers documents)), w) ∧
     length documents = size (users w) ∧ (7%N, Directory.carol) ∈ documents) ∧
  (getUsersById (DTOUsersId.mk 7) w).1
  = UsersRejected (apiResponse status.BAD_REQUEST "Users data is not exist" NoData).
Proof.
  intros w.
  apply (soft_deleted_listed_not_fetched w 7%N Directory.carol 40).
  - vm_compute. reflexivity.
  - reflexivity.
Defined.

Lemma deleteUsersById_unknown_id_witness :
  let w := Directory.world ∅ 50 in
  deleteUsersById Directory.findOneAndUpdate (DTOUsersId.mk 7) w
  = (UsersRejected (apiResponse status.BAD_REQUEST "Users data is not exist" NoData),
     record_op (OpFindOne Users) w).
Proof.
  intros w.
  apply (deleteUsersById_unknown_id Directory.findOneAndUpdate (DTOUsersId.mk 7) w).
  right. exists Directory.carol, 40. split; [vm_compute; reflexivity|reflexivity].
Defined.

Lemma updateUsersById_unknown_id_witness :
  let w := Directory.world ∅ 50 in
  updateUsersById Directory.findOneAndUpdate (DTOUsers.mk "n@x.com" "pw9" true 1)
    (DTOUsersId.mk 99) w
  = (UsersRejected (apiResponse status.BAD_REQUEST "Users data is not exist" NoData),
     record_op (OpFindOne Users) w).
Proof.
  intros w.
  apply (updateUsersById_unknown_id Directory.findOneAndUpdate
           (DTOUsers.mk "n@x.com" "pw9" true 1) (DTOUsersId.mk 99) w).
  left. vm_compute. reflexivity.
Defined.

Lemma session_rejections_are_bad_requests_witness :
  stat_code (apiResponse status.BAD_REQUEST (cannot_read "_id") NoData)
  = status.BAD_REQUEST ∧
  data (apiResponse status.BAD_REQUEST (cannot_read "_id") NoData) = NoData.
Proof.
  apply (session_rejections_are_bad_requests Sample.comparePassword Sample.signToken
           Sample.refreshToken Sample.JWT_SECRET_KEY
           (Scenario.world Scenario.orphan 150)
           (DTOLogin.mk "a@x.com" "pw1") (DTORefreshToken.mk "t1") None None).
  right. left. vm_compute. reflexivity.
Defined.

Lemma refresh_keeps_latest_witness :
  let w := Scenario.world Scenario.two_live 150 in
  ∃ s', latest_for 5
          (secrets (refreshTokenUsers Sample.refreshToken Sample.JWT_SECRET_KEY
                      (DTORefreshToken.mk "t1") w).2)
          2%N s' ∧
        ISecrets.refreshToken s' = "refresh".
Proof.
  intros w.
  apply (refresh_keeps_latest Sample.refreshToken Sample.JWT_SECRET_KEY
           (DTORefreshToken.mk "t1") w 5%N 2%N (Scenario.session "t2" 5 200)).
  apply latest_for_findOne. vm_compute. reflexivity.
Defined.

Lemma login_then_refresh_after_expiry_witness :
  let w := Scenario.world ∅ 0 in
  let w' := (loginUsers Sample.comparePassword Sample.signToken Sample.JWT_SECRET_KEY
               (DTOLogin.mk "a@x.com" "pw1") w).2 in
  ∃ token w'' sid s',
    refreshTokenUsers Sample.refreshToken Sample.JWT_SECRET_KEY
      (DTORefreshToken.mk "access:a@x.com:admin@0") (at_time (Pkg.days + 5) w')
    = (Resolved (apiResponse status.OK "Refresh accessToken success"
                   (TokenRes token (Pkg.days + 5 + Pkg.days) "admin")), w'') ∧
    secrets w !! sid = None ∧
    secrets w'' !! sid = Some s' ∧
    ISecrets.accessToken s' = token ∧
    ISecrets.refreshToken s' = "refresh:a@x.com:admin@0" ∧
    ISecrets.expiredAt s' = Pkg.days + 5 + Pkg.days.
Proof.
  intros w w'.
  apply (login_then_refresh_after_expiry Sample.comparePassword Sample.signToken
           Sample.refreshToken Sample.JWT_SECRET_KEY
           (DTOLogin.mk "a@x.com" "pw1") w w'
           "access:a@x.com:admin@0" "refresh:a@x.com:admin@0"
           Pkg.days (30 * Pkg.days) "admin").
  - vm_compute. reflexivity.
  - vm_compute. discriminate.
Defined.
